(** * TravelPassFHE: batch lifecycle, submissions, cooldowns and the
      decryption request/callback protocol

    A shallow embedding of the Solidity contract [TravelPassFHE]: storage is a
    record of finite maps read with Solidity's zero default, every external
    function is a state transformer returning either the new storage and the
    emitted events or the revert reason, and modifiers are guards wrapped
    around the function body in their declaration order. *)

From stdpp Require Import gmap list strings sorting.
From Stdlib Require Import NArith.

Open Scope N_scope.

(** ** Value types *)

Abbreviation uint256 := N (only parsing).
Abbreviation uint32 := N (only parsing).
Abbreviation address := N (only parsing).
Abbreviation bytes32 := N (only parsing).
(** [euint32] and [ebool] are user-defined value types over [bytes32]. *)
Abbreviation euint32 := N (only parsing).
Abbreviation ebool := N (only parsing).
Abbreviation bytes := (list Byte.byte) (only parsing).

Definition MAX_UINT256 : N := 2 ^ 256 - 1.

(** ** Revert reasons *)

Inductive Error : Type :=
  | NotOwner
  | NotProvider
  | Paused
  | CooldownActive
  | BatchClosed
  | BatchNotClosed
  | InvalidCooldown
  | ReplayDetected
  | StateMismatch
  | InvalidProof
  | NotInitialized
  | InvalidBatchId
  | DuplicateProvider
  | ProviderNotAdded
  | ErrorString (reason : string)   (* revert("...") *)
  | Panic (code : N)                (* checked arithmetic, Panic(0x11) *)
  | EmptyRevert.                    (* abi.decode on malformed data *)

Inductive result (A : Type) : Type :=
  | Ok (a : A)
  | Revert (e : Error).
Arguments Ok {A} a.
Arguments Revert {A} e.

Definition bind {A B} (r : result A) (k : A -> result B) : result B :=
  match r with
  | Ok a => k a
  | Revert e => Revert e
  end.

Notation "'let!' x ':=' r 'in' k" := (bind r (fun x => k))
  (at level 10, x name, r at level 100, k at level 200).

Definition is_ok {A} (r : result A) : bool :=
  match r with Ok _ => true | Revert _ => false end.

(** Solidity 0.8 arithmetic on [uint256] reverts on overflow. *)
Definition checked_add (a b : uint256) : result uint256 :=
  if a + b <=? MAX_UINT256 then Ok (a + b) else Revert (Panic 17).

(** ** Structs and enums *)

Inductive PassportAttribute : Type := Nationality | VisaStatus.

(** [PassportAttribute(0)] *)
Definition PassportAttribute_of_uint (n : N) : PassportAttribute :=
  match n with 0 => Nationality | _ => VisaStatus end.

Record PassportData : Type := mkPassportData {
  encryptedNationality : euint32;
  encryptedVisaExpiryTimestamp : euint32
}.

Record DecryptionContext : Type := mkDecryptionContext {
  batchId : uint256;
  stateHash : bytes32;
  processed : bool
}.

Record Batch : Type := mkBatch {
  isOpen : bool;
  createdAt : uint256;
  closedAt : uint256
}.

(** ** Events *)

Module Event.
Inductive t : Type :=
  | OwnershipTransferred (previousOwner newOwner : address)
  | ProviderAdded (provider : address)
  | ProviderRemoved (provider : address)
  | CooldownSet (oldCooldown newCooldown : uint256)
  | ContractPaused
  | ContractUnpaused
  | BatchOpened (batchId : uint256)
  | BatchClosed (batchId : uint256)
  | PassportSubmitted (user : address) (batchId : uint256)
  | DecryptionRequested (requestId batchId : uint256) (user : address)
      (attribute : PassportAttribute) (encryptedQueryValue : euint32)
  | DecryptionCompleted (requestId batchId : uint256) (user : address)
      (attribute : PassportAttribute) (cleartextResult : uint32).
End Event.

(** ** Mappings

    A Solidity mapping is total: a key never written reads as the zero value
    of the value type. *)

Class ZeroValue (V : Type) : Type := zero_value : V.
Global Instance zero_bool : ZeroValue bool := false.
Global Instance zero_uint : ZeroValue N := 0.
Global Instance zero_PassportData : ZeroValue PassportData := mkPassportData 0 0.
Global Instance zero_DecryptionContext : ZeroValue DecryptionContext :=
  mkDecryptionContext 0 0 false.
Global Instance zero_Batch : ZeroValue Batch := mkBatch false 0 0.

Definition mget {K V} `{Countable K} `{ZeroValue V} (m : gmap K V) (k : K) : V :=
  default zero_value (m !! k).

Notation "m .[ k ]" := (mget m k) (at level 1, left associativity, format "m .[ k ]").

(** ** Storage *)

Record State : Type := mkState {
  owner : address;
  isProvider : gmap address bool;
  lastSubmissionTime : gmap address uint256;
  lastDecryptionRequestTime : gmap address uint256;
  cooldownSeconds : uint256;
  paused : bool;
  currentBatchId : uint256;
  batches : gmap uint256 Batch;
  userPassportData : gmap (uint256 * address) PassportData;
  hasSubmittedForBatch : gmap (uint256 * address) bool;
  decryptionContexts : gmap uint256 DecryptionContext;
  counterRequest : uint256
}.

Definition set_owner (v : address) (s : State) : State :=
  mkState v (isProvider s) (lastSubmissionTime s) (lastDecryptionRequestTime s)
    (cooldownSeconds s) (paused s) (currentBatchId s) (batches s)
    (userPassportData s) (hasSubmittedForBatch s) (decryptionContexts s)
    (counterRequest s).

Definition set_isProvider (v : gmap address bool) (s : State) : State :=
  mkState (owner s) v (lastSubmissionTime s) (lastDecryptionRequestTime s)
    (cooldownSeconds s) (paused s) (currentBatchId s) (batches s)
    (userPassportData s) (hasSubmittedForBatch s) (decryptionContexts s)
    (counterRequest s).

Definition set_lastSubmissionTime (v : gmap address uint256) (s : State) : State :=
  mkState (owner s) (isProvider s) v (lastDecryptionRequestTime s)
    (cooldownSeconds s) (paused s) (currentBatchId s) (batches s)
    (userPassportData s) (hasSubmittedForBatch s) (decryptionContexts s)
    (counterRequest s).

Definition set_lastDecryptionRequestTime (v : gmap address uint256) (s : State) : State :=
  mkState (owner s) (isProvider s) (lastSubmissionTime s) v
    (cooldownSeconds s) (paused s) (currentBatchId s) (batches s)
    (userPassportData s) (hasSubmittedForBatch s) (decryptionContexts s)
    (counterRequest s).

Definition set_cooldownSeconds (v : uint256) (s : State) : State :=
  mkState (owner s) (isProvider s) (lastSubmissionTime s) (lastDecryptionRequestTime s)
    v (paused s) (currentBatchId s) (batches s)
    (userPassportData s) (hasSubmittedForBatch s) (decryptionContexts s)
    (counterRequest s).

Definition set_paused (v : bool) (s : State) : State :=
  mkState (owner s) (isProvider s) (lastSubmissionTime s) (lastDecryptionRequestTime s)
    (cooldownSeconds s) v (currentBatchId s) (batches s)
    (userPassportData s) (hasSubmittedForBatch s) (decryptionContexts s)
    (counterRequest s).

Definition set_currentBatchId (v : uint256) (s : State) : State :=
  mkState (owner s) (isProvider s) (lastSubmissionTime s) (lastDecryptionRequestTime s)
    (cooldownSeconds s) (paused s) v (batches s)
    (userPassportData s) (hasSubmittedForBatch s) (decryptionContexts s)
    (counterRequest s).

Definition set_batches (v : gmap uint256 Batch) (s : State) : State :=
  mkState (owner s) (isProvider s) (lastSubmissionTime s) (lastDecryptionRequestTime s)
    (cooldownSeconds s) (paused s) (currentBatchId s) v
    (userPassportData s) (hasSubmittedForBatch s) (decryptionContexts s)
    (counterRequest s).

Definition set_userPassportData (v : gmap (uint256 * address) PassportData) (s : State) : State :=
  mkState (owner s) (isProvider s) (lastSubmissionTime s) (lastDecryptionRequestTime s)
    (cooldownSeconds s) (paused s) (currentBatchId s) (batches s)
    v (hasSubmittedForBatch s) (decryptionContexts s)
    (counterRequest s).

Definition set_hasSubmittedForBatch (v : gmap (uint256 * address) bool) (s : State) : State :=
  mkState (owner s) (isProvider s) (lastSubmissionTime s) (lastDecryptionRequestTime s)
    (cooldownSeconds s) (paused s) (currentBatchId s) (batches s)
    (userPassportData s) v (decryptionContexts s)
    (counterRequest s).

Definition set_decryptionContexts (v : gmap uint256 DecryptionContext) (s : State) : State :=
  mkState (owner s) (isProvider s) (lastSubmissionTime s) (lastDecryptionRequestTime s)
    (cooldownSeconds s) (paused s) (currentBatchId s) (batches s)
    (userPassportData s) (hasSubmittedForBatch s) v
    (counterRequest s).

Definition set_counterRequest (v : uint256) (s : State) : State :=
  mkState (owner s) (isProvider s) (lastSubmissionTime s) (lastDecryptionRequestTime s)
    (cooldownSeconds s) (paused s) (currentBatchId s) (batches s)
    (userPassportData s) (hasSubmittedForBatch s) (decryptionContexts s)
    v.

(** Storage before the constructor body runs: the declared initialisers
    [cooldownSeconds = 30] and [currentBatchId = 1], zero elsewhere. *)
Definition initial_storage : State :=
  mkState 0 ∅ ∅ ∅ 30 false 1 ∅ ∅ ∅ ∅ 0.

(** ** Transaction environment *)

Record Env : Type := mkEnv {
  msg_sender : address;
  block_timestamp : uint256
}.

(** ** External collaborators

    The contract address, the digest [keccak256(abi.encode(cts, address(this)))],
    the homomorphic comparisons and the oracle's signature check are supplied
    by the chain and by the FHE library; the contract only consumes them. *)

Class External : Type := {
  this : address;
  keccak256_encode : list bytes32 -> address -> bytes32;
  FHE_eq : euint32 -> euint32 -> ebool;
  FHE_ge : euint32 -> euint32 -> ebool;
  FHE_checkSignatures : uint256 -> bytes -> bytes -> bool
}.

(** [FHE.isInitialized]: a handle is initialised when it is not the zero word. *)
Definition isInitialized (h : bytes32) : bool := negb (h =? 0).

(** [ebool.toBytes32] unwraps the handle. *)
Definition toBytes32 (h : ebool) : bytes32 := h.

(** [abi.decode(cleartexts, (uint32))]: the first 32-byte word, big endian;
    reverts when fewer than 32 bytes are supplied or the word does not fit. *)
Definition be_word (bs : bytes) : N :=
  fold_left (fun acc b => acc * 256 + Byte.to_N b) bs 0.

Definition abi_decode_uint32 (data : bytes) : result uint32 :=
  if (length data <? 32)%nat then Revert EmptyRevert
  else
    let w := be_word (firstn 32 data) in
    if w <? 2 ^ 32 then Ok w else Revert EmptyRevert.

(** ** The contract *)

Section Contract.
Context `{External}.

(** *** Modifiers: a guard, then the wrapped body *)

Definition onlyOwner {A} (env : Env) (s : State) (body : result A) : result A :=
  if negb (msg_sender env =? owner s) then Revert NotOwner else body.

Definition onlyProvider {A} (env : Env) (s : State) (body : result A) : result A :=
  if negb (isProvider s).[msg_sender env] then Revert NotProvider else body.

Definition whenNotPaused {A} (s : State) (body : result A) : result A :=
  if paused s then Revert Paused else body.

Definition respectCooldown {A} (env : Env) (s : State) (_user : address)
    (_lastActionTime : gmap address uint256) (body : result A) : result A :=
  let! deadline := checked_add _lastActionTime.[_user] (cooldownSeconds s) in
  if block_timestamp env <? deadline then Revert CooldownActive else body.

(** *** Private helpers *)

Definition _openNewBatch (batchId : uint256) (env : Env) (s : State)
    : State * list Event.t :=
  (set_batches (<[batchId := mkBatch true (block_timestamp env) 0]> (batches s)) s,
   [Event.BatchOpened batchId]).

Definition _closeBatch (batchId : uint256) (env : Env) (s : State)
    : result (State * list Event.t) :=
  if negb (isOpen (batches s).[batchId]) then Revert BatchClosed
  else
    let b := (batches s).[batchId] in
    let s := set_batches (<[batchId := mkBatch false (createdAt b) (closedAt b)]> (batches s)) s in
    let b := (batches s).[batchId] in
    let s := set_batches
               (<[batchId := mkBatch (isOpen b) (createdAt b) (block_timestamp env)]> (batches s)) s in
    Ok (s, [Event.BatchClosed batchId]).

Definition _hashCiphertexts (cts : list bytes32) : bytes32 :=
  keccak256_encode cts this.

(** The single ciphertext of the request is not kept in storage, so the
    rebuilt list holds the zero word. *)
Definition _rebuildStateHashForCallback (requestId : uint256) : bytes32 :=
  let cts := [0] in
  _hashCiphertexts cts.

Definition _initIfNeeded (value : bytes32) : result unit :=
  if negb (isInitialized value) then Revert NotInitialized else Ok tt.

(** Modelled from the spec: [FHE.requestDecryption] lives in the FHE library,
    outside the contract source. The oracle channel hands out a unique
    request identifier per request; as in the library the identifier is a
    counter kept with the contract and advanced by every request. *)
Definition FHE_requestDecryption (cts : list bytes32) (s : State)
    : result (uint256 * State) :=
  let requestID := counterRequest s in
  let! next := checked_add (counterRequest s) 1 in
  Ok (requestID, set_counterRequest next s).

(** Modelled from the spec: [paused], [_pause] and [_unpause] are used by the
    contract but declared nowhere in its source; a global flag that
    [pause] sets and [unpause] clears. *)
Definition _pause (s : State) : State := set_paused true s.
Definition _unpause (s : State) : State := set_paused false s.

(** *** Constructor and external functions *)

Definition constructor (env : Env) : State * list Event.t :=
  let s := set_owner (msg_sender env) initial_storage in
  _openNewBatch (currentBatchId s) env s.

Definition transferOwnership (env : Env) (newOwner : address) (s : State)
    : result (State * list Event.t) :=
  onlyOwner env s (
    let previousOwner := owner s in
    let s := set_owner newOwner s in
    Ok (s, [Event.OwnershipTransferred previousOwner newOwner])).

Definition addProvider (env : Env) (provider : address) (s : State)
    : result (State * list Event.t) :=
  onlyOwner env s (
    if (isProvider s).[provider] then Revert DuplicateProvider
    else
      let s := set_isProvider (<[provider := true]> (isProvider s)) s in
      Ok (s, [Event.ProviderAdded provider])).

Definition removeProvider (env : Env) (provider : address) (s : State)
    : result (State * list Event.t) :=
  onlyOwner env s (
    if negb (isProvider s).[provider] then Revert ProviderNotAdded
    else
      let s := set_isProvider (<[provider := false]> (isProvider s)) s in
      Ok (s, [Event.ProviderRemoved provider])).

Definition setCooldown (env : Env) (newCooldownSeconds : uint256) (s : State)
    : result (State * list Event.t) :=
  onlyOwner env s (
    if newCooldownSeconds =? 0 then Revert InvalidCooldown
    else
      let oldCooldown := cooldownSeconds s in
      let s := set_cooldownSeconds newCooldownSeconds s in
      Ok (s, [Event.CooldownSet oldCooldown newCooldownSeconds])).

Definition pause (env : Env) (s : State) : result (State * list Event.t) :=
  onlyOwner env s (Ok (_pause s, [Event.ContractPaused])).

Definition unpause (env : Env) (s : State) : result (State * list Event.t) :=
  onlyOwner env s (Ok (_unpause s, [Event.ContractUnpaused])).

Definition openNewBatch (env : Env) (s : State) : result (State * list Event.t) :=
  onlyOwner env s (
    let! next := checked_add (currentBatchId s) 1 in
    let s := set_currentBatchId next s in
    Ok (_openNewBatch (currentBatchId s) env s)).

Definition closeCurrentBatch (env : Env) (s : State) : result (State * list Event.t) :=
  onlyOwner env s (
    let! closed := _closeBatch (currentBatchId s) env s in
    let '(s, evs) := closed in
    let! next := checked_add (currentBatchId s) 1 in
    Ok (set_currentBatchId next s, evs)).

Definition submitPassportData (env : Env) (user : address)
    (encryptedNationality encryptedVisaExpiryTimestamp : euint32) (s : State)
    : result (State * list Event.t) :=
  onlyProvider env s (whenNotPaused s (
  respectCooldown env s user (lastSubmissionTime s) (
    if negb (isOpen (batches s).[currentBatchId s]) then Revert BatchClosed
    else if (hasSubmittedForBatch s).[(currentBatchId s, user)]
    then Revert (ErrorString "User already submitted for this batch")
    else
      let! _ := _initIfNeeded encryptedNationality in
      let! _ := _initIfNeeded encryptedVisaExpiryTimestamp in
      let s := set_userPassportData
                 (<[(currentBatchId s, user) :=
                      mkPassportData encryptedNationality encryptedVisaExpiryTimestamp]>
                    (userPassportData s)) s in
      let s := set_hasSubmittedForBatch
                 (<[(currentBatchId s, user) := true]> (hasSubmittedForBatch s)) s in
      let s := set_lastSubmissionTime
                 (<[user := block_timestamp env]> (lastSubmissionTime s)) s in
      Ok (s, [Event.PassportSubmitted user (currentBatchId s)])))).

(** The two request functions differ in the stored field they read, the
    comparison and the attribute reported by the event. *)
Definition requestVerify (attribute : PassportAttribute)
    (field : PassportData -> euint32) (compare : euint32 -> euint32 -> ebool)
    (env : Env) (user : address) (forBatchId : uint256) (encryptedQuery : euint32)
    (s : State) : result (State * list Event.t) :=
  onlyProvider env s (whenNotPaused s (
  respectCooldown env s user (lastDecryptionRequestTime s) (
    if (currentBatchId s <? forBatchId) || (forBatchId =? 0) then Revert InvalidBatchId
    else if isOpen (batches s).[forBatchId] then Revert BatchNotClosed
    else if negb (isInitialized (field (userPassportData s).[(forBatchId, user)]))
    then Revert NotInitialized
    else
      let! _ := _initIfNeeded encryptedQuery in
      let encryptedResult :=
        compare (field (userPassportData s).[(forBatchId, user)]) encryptedQuery in
      let cts := [toBytes32 encryptedResult] in
      let stateHash := _hashCiphertexts cts in
      let! issued := FHE_requestDecryption cts s in
      let '(requestId, s) := issued in
      let s := set_decryptionContexts
                 (<[requestId := mkDecryptionContext forBatchId stateHash false]>
                    (decryptionContexts s)) s in
      let s := set_lastDecryptionRequestTime
                 (<[user := block_timestamp env]> (lastDecryptionRequestTime s)) s in
      Ok (s, [Event.DecryptionRequested requestId forBatchId user attribute
                encryptedQuery])))).

Definition requestVerifyNationality :=
  requestVerify Nationality encryptedNationality FHE_eq.

Definition requestVerifyVisaStatus :=
  requestVerify VisaStatus encryptedVisaExpiryTimestamp FHE_ge.

Definition myCallback (env : Env) (requestId : uint256) (cleartexts proof : bytes)
    (s : State) : result (State * list Event.t) :=
  if processed (decryptionContexts s).[requestId] then Revert ReplayDetected
  else
    let currentHash := _rebuildStateHashForCallback requestId in
    if negb (currentHash =? stateHash (decryptionContexts s).[requestId])
    then Revert StateMismatch
    else if negb (FHE_checkSignatures requestId cleartexts proof) then Revert InvalidProof
    else
      let! result := abi_decode_uint32 cleartexts in
      let ctx := (decryptionContexts s).[requestId] in
      let s := set_decryptionContexts
                 (<[requestId := mkDecryptionContext (batchId ctx) (stateHash ctx) true]>
                    (decryptionContexts s)) s in
      Ok (s, [Event.DecryptionCompleted requestId
                (batchId (decryptionContexts s).[requestId])
                (msg_sender env)
                (PassportAttribute_of_uint 0)
                result]).

(** *** Transactions and histories *)

Inductive Call : Type :=
  | CallTransferOwnership (newOwner : address)
  | CallAddProvider (provider : address)
  | CallRemoveProvider (provider : address)
  | CallSetCooldown (newCooldownSeconds : uint256)
  | CallPause
  | CallUnpause
  | CallOpenNewBatch
  | CallCloseCurrentBatch
  | CallSubmitPassportData (user : address)
      (encryptedNationality encryptedVisaExpiryTimestamp : euint32)
  | CallRequestVerifyNationality (user : address) (forBatchId : uint256)
      (encryptedQueryNationality : euint32)
  | CallRequestVerifyVisaStatus (user : address) (forBatchId : uint256)
      (encryptedCurrentTimestamp : euint32)
  | CallMyCallback (requestId : uint256) (cleartexts proof : bytes).

Definition exec (env : Env) (c : Call) (s : State) : result (State * list Event.t) :=
  match c with
  | CallTransferOwnership newOwner => transferOwnership env newOwner s
  | CallAddProvider provider => addProvider env provider s
  | CallRemoveProvider provider => removeProvider env provider s
  | CallSetCooldown n => setCooldown env n s
  | CallPause => pause env s
  | CallUnpause => unpause env s
  | CallOpenNewBatch => openNewBatch env s
  | CallCloseCurrentBatch => closeCurrentBatch env s
  | CallSubmitPassportData user n v => submitPassportData env user n v s
  | CallRequestVerifyNationality user b q => requestVerifyNationality env user b q s
  | CallRequestVerifyVisaStatus user b q => requestVerifyVisaStatus env user b q s
  | CallMyCallback r c p => myCallback env r c p s
  end.

(** The ABI accepts only arguments within the range of their Solidity type,
    and the chain supplies a 160-bit sender and a 256-bit timestamp. *)
Definition is_uint256 (n : N) : bool := n <=? MAX_UINT256.
Definition is_address (a : N) : bool := a <? 2 ^ 160.

Definition well_typed_call (c : Call) : bool :=
  match c with
  | CallTransferOwnership a | CallAddProvider a | CallRemoveProvider a => is_address a
  | CallSetCooldown n => is_uint256 n
  | CallPause | CallUnpause | CallOpenNewBatch | CallCloseCurrentBatch => true
  | CallSubmitPassportData user n v => is_address user && is_uint256 n && is_uint256 v
  | CallRequestVerifyNationality user b q
  | CallRequestVerifyVisaStatus user b q => is_address user && is_uint256 b && is_uint256 q
  | CallMyCallback r _ _ => is_uint256 r
  end.

Definition well_typed (tx : Env * Call) : bool :=
  is_address (msg_sender tx.1) && is_uint256 (block_timestamp tx.1) && well_typed_call tx.2.

(** A transaction that reverts leaves storage and the event log untouched. *)
Definition step (w : State * list Event.t) (tx : Env * Call) : State * list Event.t :=
  match exec tx.1 tx.2 w.1 with
  | Ok (s', evs) => (s', w.2 ++ evs)
  | Revert _ => w
  end.

Definition run (txs : list (Env * Call)) (w : State * list Event.t)
    : State * list Event.t :=
  fold_left step txs w.

Definition reachable (w : State * list Event.t) : Prop :=
  exists deployer txs,
    forallb well_typed txs = true /\ w = run txs (constructor deployer).

End Contract.

(** ** Reading the log *)

Definition opened_id (e : Event.t) : option uint256 :=
  match e with Event.BatchOpened id => Some id | _ => None end.

(** The ids of the batches opened so far, oldest first. *)
Definition opened_ids (log : list Event.t) : list uint256 :=
  omap opened_id log.

Definition is_submission_for (user : address) (e : Event.t) : bool :=
  match e with Event.PassportSubmitted u _ => u =? user | _ => false end.

Definition is_request_for (user : address) (e : Event.t) : bool :=
  match e with Event.DecryptionRequested _ _ u _ _ => u =? user | _ => false end.

(** No successful action of the given kind names [user] in the log. *)
Definition never (kind : address -> Event.t -> bool) (user : address)
    (log : list Event.t) : bool :=
  forallb (fun e => negb (kind user e)) log.

Definition exactly_one_open (s : State) : Prop :=
  exists id, isOpen (batches s).[id] = true /\
    forall id', isOpen (batches s).[id'] = true -> id' = id.

(** ** Concrete collaborators used to run the contract on examples *)

(** A digest that tells apart the one-element lists met in the examples
    and never yields the zero word. *)
Definition sample_external : External := {|
  this := 4096;
  keccak256_encode := fun cts a => 1 + (a + fold_right (fun c acc => 3 * acc + c + 1) 0 cts) `mod` 2 ^ 255;
  FHE_eq := fun a b => 2 * ((a + 31 * b) `mod` 2 ^ 200) + 1;
  FHE_ge := fun a b => 2 * ((a + 37 * b) `mod` 2 ^ 200) + 1;
  FHE_checkSignatures := fun _ _ proof => negb (length proof =? 0)%nat
|}.

(** A degenerate digest under which the rebuilt hash always matches. *)
Definition constant_digest_external : External := {|
  this := 4096;
  keccak256_encode := fun _ _ => 1;
  FHE_eq := fun a b => 2 * ((a + 31 * b) `mod` 2 ^ 200) + 1;
  FHE_ge := fun a b => 2 * ((a + 37 * b) `mod` 2 ^ 200) + 1;
  FHE_checkSignatures := fun _ _ proof => negb (length proof =? 0)%nat
|}.

(** The administrative calls: they touch only the owner, the provider set,
    the cooldown length and the pause flag. *)
Definition admin_call (c : Call) : bool :=
  match c with
  | CallTransferOwnership _ | CallAddProvider _ | CallRemoveProvider _
  | CallSetCooldown _ | CallPause | CallUnpause => true
  | _ => false
  end.

(** ** Example histories

    Address 1 deploys and owns the contract, address 2 is a provider, address 7
    is the user whose passport is submitted, address 9 delivers callbacks. *)

Definition at_time (who : address) (t : uint256) : Env := mkEnv who t.

Definition deployed : State * list Event.t := constructor (at_time 1 0).

Definition history_provider_added : list (Env * Call) :=
  [ (at_time 1 10, CallAddProvider 2) ].

Definition history_submitted : list (Env * Call) :=
  history_provider_added ++ [ (at_time 2 100, CallSubmitPassportData 7 11 13) ].

Definition history_closed : list (Env * Call) :=
  history_submitted ++ [ (at_time 1 200, CallCloseCurrentBatch) ].

Definition history_requested : list (Env * Call) :=
  history_closed ++ [ (at_time 2 300, CallRequestVerifyNationality 7 1 11) ].

Definition history_reopened : list (Env * Call) :=
  [ (at_time 1 50, CallOpenNewBatch);
    (at_time 1 60, CallCloseCurrentBatch);
    (at_time 1 70, CallOpenNewBatch) ].

Definition history_long_cooldown : list (Env * Call) :=
  history_submitted ++ [ (at_time 1 150, CallSetCooldown MAX_UINT256) ].

Definition history_paused : list (Env * Call) :=
  history_requested ++ [ (at_time 1 350, CallPause) ].

Definition sample_run (txs : list (Env * Call)) : State * list Event.t :=
  run (H:=sample_external) txs deployed.

Definition constant_digest_run (txs : list (Env * Call)) : State * list Event.t :=
  run (H:=constant_digest_external) txs deployed.

(** A 32-byte word holding 1, as the oracle encodes a true result. *)
Definition cleartext_true : bytes :=
  repeat Byte.x00 31 ++ [Byte.x01].

Definition some_proof : bytes := [Byte.x01].

(** ** Causes of a failed submission

    What each revert reason of [submitPassportData] says about the call. *)
Definition submission_failure_cause (env : Env) (user : address) (n v : euint32)
    (s : State) (e : Error) : Prop :=
  match e with
  | NotProvider => (isProvider s).[msg_sender env] = false
  | Paused => paused s = true
  | Panic _ => MAX_UINT256 < (lastSubmissionTime s).[user] + cooldownSeconds s
  | CooldownActive => block_timestamp env < (lastSubmissionTime s).[user] + cooldownSeconds s
  | BatchClosed => isOpen (batches s).[currentBatchId s] = false
  | ErrorString reason =>
      reason = "User already submitted for this batch"%string /\
      (hasSubmittedForBatch s).[(currentBatchId s, user)] = true
  | NotInitialized => n = 0 \/ v = 0
  | _ => False
  end.

(** ** Gates

    The calls wrapped in [onlyOwner], and those wrapped in [onlyProvider] and
    [whenNotPaused]. *)
Definition owner_only (c : Call) : bool :=
  match c with
  | CallTransferOwnership _ | CallAddProvider _ | CallRemoveProvider _
  | CallSetCooldown _ | CallPause | CallUnpause
  | CallOpenNewBatch | CallCloseCurrentBatch => true
  | _ => false
  end.

Definition provider_only (c : Call) : bool :=
  match c with
  | CallSubmitPassportData _ _ _
  | CallRequestVerifyNationality _ _ _
  | CallRequestVerifyVisaStatus _ _ _ => true
  | _ => false
  end.

(** Two calls end alike: both succeed, or both revert with the same reason. *)
Definition same_outcome {A B} (r1 : result A) (r2 : result B) : Prop :=
  match r1, r2 with
  | Ok _, Ok _ => True
  | Revert e1, Revert e2 => e1 = e2
  | _, _ => False
  end.

(** The storage fields that only the owner-gated functions write. *)
Definition admin_view (s : State)
    : address * gmap address bool * uint256 * bool * uint256 * gmap uint256 Batch :=
  (owner s, isProvider s, cooldownSeconds s, paused s, currentBatchId s, batches s).

Definition is_submission_call_for (user : address) (c : Call) : bool :=
  match c with
  | CallSubmitPassportData u _ _ => u =? user
  | _ => false
  end.

Definition is_request_call_for (user : address) (c : Call) : bool :=
  match c with
  | CallRequestVerifyNationality u _ _ | CallRequestVerifyVisaStatus u _ _ => u =? user
  | _ => false
  end.

(** The submissions recorded in the log, as (batch, user) slots. *)
Definition submitted_slot (e : Event.t) : option (uint256 * address) :=
  match e with Event.PassportSubmitted u b => Some (b, u) | _ => None end.

Definition submitted_slots (log : list Event.t) : list (uint256 * address) :=
  omap submitted_slot log.

(** The storage fields that only the provider-gated functions write. *)
Definition provider_view (s : State)
    : gmap (uint256 * address) PassportData * gmap (uint256 * address) bool
      * gmap address uint256 * gmap address uint256 * uint256 :=
  (userPassportData s, hasSubmittedForBatch s, lastSubmissionTime s,
   lastDecryptionRequestTime s, counterRequest s).

(** Flags, stored records and [PassportSubmitted] events tell the same story. *)
Definition submissions_consistent (w : State * list Event.t) : Prop :=
  forall b u,
    ((hasSubmittedForBatch w.1).[(b, u)] = true ->
     encryptedNationality (userPassportData w.1).[(b, u)] ≠ 0 /\
     encryptedVisaExpiryTimestamp (userPassportData w.1).[(b, u)] ≠ 0 /\
     1 <= b <= currentBatchId w.1 /\
     (b, u) ∈ submitted_slots w.2) /\
    ((hasSubmittedForBatch w.1).[(b, u)] = false ->
     userPassportData w.1 !! (b, u) = None /\
     (b, u) ∉ submitted_slots w.2).

(** Every stored context was issued and names a batch that is not open. *)
Definition contexts_closed (s : State) : Prop :=
  forall r ctx,
    decryptionContexts s !! r = Some ctx ->
    r < counterRequest s /\
    1 <= batchId ctx <= currentBatchId s /\
    isOpen (batches s).[batchId ctx] = false.

(** The requests and the completions recorded in the log. *)
Definition requested_context (e : Event.t) : option (uint256 * uint256) :=
  match e with Event.DecryptionRequested r b _ _ _ => Some (r, b) | _ => None end.

Definition requested_contexts (log : list Event.t) : list (uint256 * uint256) :=
  omap requested_context log.

Definition completed_request (e : Event.t) : option uint256 :=
  match e with Event.DecryptionCompleted r _ _ _ _ => Some r | _ => None end.

Definition completed_requests (log : list Event.t) : list uint256 :=
  omap completed_request log.

(** ** Well-formed histories

    What every state reached from the constructor satisfies, together with
    its event log. *)
Record wf (w : State * list Event.t) : Prop := mkWf {
  wf_cooldown : 1 <= cooldownSeconds w.1 <= MAX_UINT256;
  wf_current : 1 <= currentBatchId w.1;
  wf_batches : forall id, is_Some (batches w.1 !! id) -> 1 <= id <= currentBatchId w.1;
  wf_data : forall k, (hasSubmittedForBatch w.1).[k] = false -> userPassportData w.1 !! k = None;
  wf_opened_sorted : StronglySorted N.lt (opened_ids w.2);
  wf_opened_bound : Forall (fun id => id <= currentBatchId w.1) (opened_ids w.2);
  wf_submission_clock :
    forall u, never is_submission_for u w.2 = true -> lastSubmissionTime w.1 !! u = None;
  wf_request_clock :
    forall u, never is_request_for u w.2 = true -> lastDecryptionRequestTime w.1 !! u = None
}.

(** No context is stored under an identifier the oracle channel has not
    handed out yet. *)
Definition contexts_issued (s : State) : Prop :=
  forall r, counterRequest s <= r -> decryptionContexts s !! r = None.

(** Stored contexts, [DecryptionRequested] events and [DecryptionCompleted]
    events tell the same story. *)
Definition contexts_logged (w : State * list Event.t) : Prop :=
  contexts_issued w.1 /\
  forall r,
    match decryptionContexts w.1 !! r with
    | Some ctx =>
        (r, batchId ctx) ∈ requested_contexts w.2 /\
        (processed ctx = true <-> r ∈ completed_requests w.2)
    | None =>
        (forall b, (r, b) ∉ requested_contexts w.2) /\
        r ∉ completed_requests w.2
    end.

(** The providers registered according to the log. *)
Definition added_provider (e : Event.t) : option address :=
  match e with Event.ProviderAdded a => Some a | _ => None end.

Definition added_providers (log : list Event.t) : list address :=
  omap added_provider log.

(** ** Basic facts *)

Section MappingFacts.
Context {K V : Type} `{Countable K} `{ZeroValue V}.

Lemma mget_insert (m : gmap K V) (k k' : K) (v : V) :
  (<[k := v]> m).[k'] = if decide (k = k') then v else m.[k'].
Proof. unfold mget. rewrite lookup_insert. by case_decide. Qed.

Lemma mget_insert_eq (m : gmap K V) (k : K) (v : V) : (<[k := v]> m).[k] = v.
Proof. rewrite mget_insert. by case_decide. Qed.

Lemma mget_insert_ne (m : gmap K V) (k k' : K) (v : V) :
  k ≠ k' -> (<[k := v]> m).[k'] = m.[k'].
Proof. intros. rewrite mget_insert. by case_decide. Qed.

Lemma mget_None (m : gmap K V) (k : K) : m !! k = None -> m.[k] = zero_value.
Proof. unfold mget. by intros ->. Qed.
End MappingFacts.

Lemma checked_add_Ok (a b c : N) :
  checked_add a b = Ok c <-> a + b <= MAX_UINT256 /\ c = a + b.
Proof.
  unfold checked_add. destruct (N.leb_spec (a + b) MAX_UINT256); split.
  - intros [= <-]. done.
  - by intros [_ ->].
  - done.
  - intros [? _]. lia.
Qed.

Lemma checked_add_Revert (a b : N) (e : Error) :
  checked_add a b = Revert e <-> MAX_UINT256 < a + b /\ e = Panic 17.
Proof.
  unfold checked_add. destruct (N.leb_spec (a + b) MAX_UINT256); split.
  - done.
  - intros [? _]. lia.
  - intros [= <-]. done.
  - by intros [_ ->].
Qed.

Lemma isInitialized_zero : isInitialized 0 = false.
Proof. reflexivity. Qed.

Section Histories.
Context `{External}.

Lemma run_nil w : run [] w = w.
Proof. reflexivity. Qed.

Lemma run_cons tx txs w : run (tx :: txs) w = run txs (step w tx).
Proof. reflexivity. Qed.

Lemma run_app txs1 txs2 w : run (txs1 ++ txs2) w = run txs2 (run txs1 w).
Proof. apply fold_left_app. Qed.

Lemma run_snoc txs tx w : run (txs ++ [tx]) w = step (run txs w) tx.
Proof. by rewrite run_app. Qed.

Lemma reachable_constructor deployer : reachable (constructor deployer).
Proof. by exists deployer, []. Qed.

(** A property of the storage and the log that holds after construction and
    survives every successful call holds in every reachable state. *)
Lemma reachable_invariant (P : State * list Event.t -> Prop) :
  (forall deployer, P (constructor deployer)) ->
  (forall s log env c s' evs,
      well_typed (env, c) = true ->
      P (s, log) -> exec env c s = Ok (s', evs) -> P (s', log ++ evs)) ->
  forall w, reachable w -> P w.
Proof.
  intros Hinit Hstep w (d & txs & Htyped & ->).
  induction txs as [|tx txs IH] using rev_ind; [apply Hinit|].
  rewrite forallb_app in Htyped. apply andb_true_iff in Htyped as [Htxs Htx].
  simpl in Htx. rewrite andb_true_r in Htx. specialize (IH Htxs).
  rewrite run_snoc. unfold step.
  destruct (exec tx.1 tx.2 (run txs (constructor d)).1) as [[s' evs]|e] eqn:E; [|done].
  destruct (run txs (constructor d)) as [s log]. destruct tx as [env c]. by eapply Hstep.
Qed.

(** The same for a property that is only required to survive, started from
    any state. *)
Lemma run_invariant (P : State * list Event.t -> Prop) :
  (forall s log env c s' evs,
      P (s, log) -> exec env c s = Ok (s', evs) -> P (s', log ++ evs)) ->
  forall txs w, P w -> P (run txs w).
Proof.
  intros Hstep txs. induction txs as [|tx txs IH]; intros w Hw; [done|].
  rewrite run_cons. apply IH. unfold step.
  destruct (exec tx.1 tx.2 w.1) as [[s' evs]|e] eqn:E; [|done].
  destruct w as [s log]. by eapply Hstep.
Qed.
End Histories.

(** ** What a successful call does *)

Section CallEffects.
Context `{External}.

Ltac split_guards H :=
  repeat match type of H with
         | context [if ?c then _ else _] => destruct c eqn:?; try discriminate H
         | context [checked_add ?a ?b] =>
             let E := fresh "Hadd" in
             destruct (checked_add a b) eqn:E; simpl in H; try discriminate H
         end.

Lemma openNewBatch_Ok env s s' evs :
  openNewBatch env s = Ok (s', evs) ->
  msg_sender env = owner s /\
  currentBatchId s + 1 <= MAX_UINT256 /\
  s' = set_batches (<[currentBatchId s + 1 := mkBatch true (block_timestamp env) 0]> (batches s))
         (set_currentBatchId (currentBatchId s + 1) s) /\
  evs = [Event.BatchOpened (currentBatchId s + 1)].
Proof.
  unfold openNewBatch, onlyOwner, bind, _openNewBatch. intros Hc.
  split_guards Hc. apply checked_add_Ok in Hadd as [? ->].
  injection Hc as <- <-. apply negb_false_iff, N.eqb_eq in Heqb. done.
Qed.

Lemma _closeBatch_Ok id env s s' evs :
  _closeBatch id env s = Ok (s', evs) ->
  isOpen (batches s).[id] = true /\
  s' = set_batches
         (<[id := mkBatch false (createdAt (batches s).[id]) (block_timestamp env)]> (batches s)) s /\
  evs = [Event.BatchClosed id].
Proof.
  unfold _closeBatch. intros Hc. split_guards Hc.
  apply negb_false_iff in Heqb. injection Hc as <- <-. split; [done|]. split; [|done].
  simpl. rewrite mget_insert_eq. simpl. by rewrite insert_insert_eq.
Qed.

Lemma closeCurrentBatch_Ok env s s' evs :
  closeCurrentBatch env s = Ok (s', evs) ->
  msg_sender env = owner s /\
  isOpen (batches s).[currentBatchId s] = true /\
  currentBatchId s + 1 <= MAX_UINT256 /\
  s' = set_currentBatchId (currentBatchId s + 1)
         (set_batches
            (<[currentBatchId s :=
                 mkBatch false (createdAt (batches s).[currentBatchId s]) (block_timestamp env)]>
               (batches s)) s) /\
  evs = [Event.BatchClosed (currentBatchId s)].
Proof.
  unfold closeCurrentBatch, onlyOwner. intros Hc.
  destruct (negb (msg_sender env =? owner s)) eqn:Ho; [done|].
  apply negb_false_iff, N.eqb_eq in Ho.
  destruct (_closeBatch (currentBatchId s) env s) as [[s1 evs1]|e] eqn:Hcl; [|done].
  apply _closeBatch_Ok in Hcl as (Hopen & -> & ->). simpl in Hc.
  destruct (checked_add (currentBatchId s) 1) eqn:Hadd; [|done].
  apply checked_add_Ok in Hadd as [? ->]. simpl in Hc. injection Hc as <- <-. done.
Qed.

Lemma respectCooldown_Ok {A} env s user last (body : result A) (a : A) :
  respectCooldown env s user last body = Ok a <->
  last.[user] + cooldownSeconds s <= MAX_UINT256 /\
  last.[user] + cooldownSeconds s <= block_timestamp env /\
  body = Ok a.
Proof.
  unfold respectCooldown, bind, checked_add.
  destruct (N.leb_spec (last.[user] + cooldownSeconds s) MAX_UINT256);
    [destruct (N.ltb_spec (block_timestamp env) (last.[user] + cooldownSeconds s))|];
    split; try done; try (intros (? & ? & ?); lia).
  by intros (_ & _ & ->).
Qed.

Lemma submitPassportData_Ok env user n v s s' evs :
  submitPassportData env user n v s = Ok (s', evs) ->
  (isProvider s).[msg_sender env] = true /\
  paused s = false /\
  (lastSubmissionTime s).[user] + cooldownSeconds s <= MAX_UINT256 /\
  (lastSubmissionTime s).[user] + cooldownSeconds s <= block_timestamp env /\
  isOpen (batches s).[currentBatchId s] = true /\
  (hasSubmittedForBatch s).[(currentBatchId s, user)] = false /\
  n ≠ 0 /\ v ≠ 0 /\
  s' = set_lastSubmissionTime (<[user := block_timestamp env]> (lastSubmissionTime s))
         (set_hasSubmittedForBatch
            (<[(currentBatchId s, user) := true]> (hasSubmittedForBatch s))
            (set_userPassportData
               (<[(currentBatchId s, user) := mkPassportData n v]> (userPassportData s)) s)) /\
  evs = [Event.PassportSubmitted user (currentBatchId s)].
Proof.
  unfold submitPassportData, onlyProvider, whenNotPaused. intros Hc.
  destruct ((isProvider s).[msg_sender env]) eqn:Hp; [|done]. simpl in Hc.
  destruct (paused s) eqn:Hpa; [done|].
  apply respectCooldown_Ok in Hc as (Hfit & Hcd & Hc).
  unfold _initIfNeeded, isInitialized, bind in Hc.
  destruct (isOpen _) eqn:Ho; [|done]. simpl in Hc.
  destruct ((hasSubmittedForBatch s).[_]) eqn:Hs; [done|].
  destruct (N.eqb_spec n 0); [done|]. destruct (N.eqb_spec v 0); [done|].
  simpl in Hc. injection Hc as <- <-. done.
Qed.

Lemma requestVerify_Ok attr field cmp env user b q s s' evs :
  requestVerify attr field cmp env user b q s = Ok (s', evs) ->
  (isProvider s).[msg_sender env] = true /\
  paused s = false /\
  (lastDecryptionRequestTime s).[user] + cooldownSeconds s <= MAX_UINT256 /\
  (lastDecryptionRequestTime s).[user] + cooldownSeconds s <= block_timestamp env /\
  1 <= b <= currentBatchId s /\
  isOpen (batches s).[b] = false /\
  field (userPassportData s).[(b, user)] ≠ 0 /\
  q ≠ 0 /\
  counterRequest s + 1 <= MAX_UINT256 /\
  s' = set_lastDecryptionRequestTime
         (<[user := block_timestamp env]> (lastDecryptionRequestTime s))
         (set_decryptionContexts
            (<[counterRequest s :=
                 mkDecryptionContext b
                   (_hashCiphertexts [toBytes32 (cmp (field (userPassportData s).[(b, user)]) q)])
                   false]> (decryptionContexts s))
            (set_counterRequest (counterRequest s + 1) s)) /\
  evs = [Event.DecryptionRequested (counterRequest s) b user attr q].
Proof.
  unfold requestVerify, onlyProvider, whenNotPaused. intros Hc.
  destruct ((isProvider s).[msg_sender env]) eqn:Hp; [|done]. simpl in Hc.
  destruct (paused s) eqn:Hpa; [done|].
  apply respectCooldown_Ok in Hc as (Hfit & Hcd & Hc).
  unfold _initIfNeeded, isInitialized, FHE_requestDecryption, bind in Hc.
  destruct (N.ltb_spec (currentBatchId s) b); [done|].
  destruct (N.eqb_spec b 0); [done|]. simpl in Hc.
  destruct (isOpen _) eqn:Ho; [done|].
  destruct (N.eqb_spec (field (userPassportData s).[(b, user)]) 0); [done|].
  destruct (N.eqb_spec q 0); [done|]. simpl in Hc.
  destruct (checked_add (counterRequest s) 1) eqn:Hadd; [|done].
  apply checked_add_Ok in Hadd as [? ->]. simpl in Hc. injection Hc as <- <-.
  repeat split; try done; lia.
Qed.

Lemma myCallback_Ok env r c p s s' evs :
  myCallback env r c p s = Ok (s', evs) ->
  processed (decryptionContexts s).[r] = false /\
  stateHash (decryptionContexts s).[r] = keccak256_encode [0] this /\
  FHE_checkSignatures r c p = true /\
  exists res,
    abi_decode_uint32 c = Ok res /\
    s' = set_decryptionContexts
           (<[r := mkDecryptionContext (batchId (decryptionContexts s).[r])
                     (stateHash (decryptionContexts s).[r]) true]> (decryptionContexts s)) s /\
    evs = [Event.DecryptionCompleted r (batchId (decryptionContexts s).[r])
             (msg_sender env) Nationality res].
Proof.
  unfold myCallback, _rebuildStateHashForCallback, _hashCiphertexts, bind. intros Hc.
  destruct (processed _) eqn:Hpr; [done|].
  destruct (N.eqb_spec (keccak256_encode [0] this) (stateHash (decryptionContexts s).[r]));
    [|done]. simpl in Hc.
  destruct (FHE_checkSignatures r c p) eqn:Hsig; [|done]. simpl in Hc.
  destruct (abi_decode_uint32 c) as [res|] eqn:Hdec; [|done].
  injection Hc as <- <-. repeat split; try done. exists res.
  repeat split. simpl. by rewrite mget_insert_eq.
Qed.

Lemma admin_call_Ok env c s s' evs :
  admin_call c = true -> exec env c s = Ok (s', evs) ->
  msg_sender env = owner s /\
  lastSubmissionTime s' = lastSubmissionTime s /\
  lastDecryptionRequestTime s' = lastDecryptionRequestTime s /\
  currentBatchId s' = currentBatchId s /\
  batches s' = batches s /\
  userPassportData s' = userPassportData s /\
  hasSubmittedForBatch s' = hasSubmittedForBatch s /\
  decryptionContexts s' = decryptionContexts s /\
  counterRequest s' = counterRequest s /\
  (cooldownSeconds s' = cooldownSeconds s \/
   (c = CallSetCooldown (cooldownSeconds s') /\ cooldownSeconds s' ≠ 0)) /\
  opened_ids evs = [] /\
  (forall u, never is_submission_for u evs = true) /\
  (forall u, never is_request_for u evs = true).
Proof.
  intros Ha Hc. destruct c; try discriminate Ha; simpl in Hc;
    unfold transferOwnership, addProvider, removeProvider, setCooldown, pause, unpause,
      onlyOwner in Hc;
    split_guards Hc; injection Hc as <- <-;
    apply negb_false_iff, N.eqb_eq in Heqb; simpl; repeat split; auto.
  right. split; [done|]. by apply N.eqb_neq.
Qed.
End CallEffects.

(** ** Every reachable state is well formed *)

Lemma never_app kind user l1 l2 :
  never kind user (l1 ++ l2) = never kind user l1 && never kind user l2.
Proof. apply forallb_app. Qed.

Lemma opened_ids_app l1 l2 : opened_ids (l1 ++ l2) = opened_ids l1 ++ opened_ids l2.
Proof. apply omap_app. Qed.

Lemma StronglySorted_snoc {A} (R : relation A) (l : list A) (x : A) :
  StronglySorted R l -> Forall (fun y => R y x) l -> StronglySorted R (l ++ [x]).
Proof.
  induction 1 as [|y l Hl IH Hy]; intros Hx; simpl.
  - repeat constructor.
  - apply Forall_cons in Hx as [Hyx Hx]. constructor; [by apply IH|].
    apply Forall_app. split; [done|]. by constructor.
Qed.

Section WellFormed.
Context `{External}.

Lemma wf_constructor deployer : wf (constructor deployer).
Proof.
  split; simpl.
  - unfold MAX_UINT256. lia.
  - lia.
  - intros id [b Hb]. apply lookup_insert_Some in Hb as [[<- _]|[_ Hb]]; [lia|done].
  - done.
  - repeat constructor.
  - repeat constructor. lia.
  - done.
  - done.
Qed.

Lemma wf_admin_call s log env c s' evs :
  admin_call c = true -> well_typed (env, c) = true ->
  wf (s, log) -> exec env c s = Ok (s', evs) -> wf (s', log ++ evs).
Proof.
  intros Ha Hty [] Hc. simpl in *.
  destruct (admin_call_Ok _ _ _ _ _ Ha Hc)
    as (_ & Hl & Hr & Hcur & Hb & Hd & Hf & Hx & Hn & Hcd & Ho & Hns & Hnr).
  split; simpl; rewrite ?Hl, ?Hr, ?Hcur, ?Hb, ?Hd, ?Hf, ?Hx, ?Hn, ?opened_ids_app, ?Ho,
    ?app_nil_r; try done.
  - destruct Hcd as [->|[-> Hnz]]; [done|].
    apply andb_true_iff in Hty as [_ Hn']. apply N.leb_le in Hn'. lia.
  - intros u. rewrite never_app, Hns, andb_true_r. auto.
  - intros u. rewrite never_app, Hnr, andb_true_r. auto.
Qed.

Lemma wf_openNewBatch s log env s' evs :
  wf (s, log) -> openNewBatch env s = Ok (s', evs) -> wf (s', log ++ evs).
Proof.
  intros [] (_ & Hfit & -> & ->)%openNewBatch_Ok. simpl in *.
  split; simpl; rewrite ?opened_ids_app; simpl; try done.
  - lia.
  - intros id [b Hb]. apply lookup_insert_Some in Hb as [[<- _]|[_ Hb]]; [lia|].
    assert (1 <= id <= currentBatchId s) by eauto. lia.
  - apply StronglySorted_snoc; [done|].
    eapply Forall_impl; [done|]. simpl. lia.
  - apply Forall_app. split; [|repeat constructor; lia].
    eapply Forall_impl; [done|]. simpl. lia.
  - intros u. rewrite never_app. intros [Hn _]%andb_true_iff. auto.
  - intros u. rewrite never_app. intros [Hn _]%andb_true_iff. auto.
Qed.

Lemma wf_closeCurrentBatch s log env s' evs :
  wf (s, log) -> closeCurrentBatch env s = Ok (s', evs) -> wf (s', log ++ evs).
Proof.
  intros [] (_ & Hopen & Hfit & -> & ->)%closeCurrentBatch_Ok. simpl in *.
  split; simpl; rewrite ?opened_ids_app, ?app_nil_r; simpl; try done.
  - lia.
  - intros id [b Hb]. apply lookup_insert_Some in Hb as [[<- _]|[_ Hb]]; [lia|].
    assert (1 <= id <= currentBatchId s) by eauto. lia.
  - eapply Forall_impl; [done|]. simpl. lia.
  - intros u. rewrite never_app. intros [Hn _]%andb_true_iff. auto.
  - intros u. rewrite never_app. intros [Hn _]%andb_true_iff. auto.
Qed.

Lemma wf_submitPassportData s log env user n v s' evs :
  wf (s, log) -> submitPassportData env user n v s = Ok (s', evs) -> wf (s', log ++ evs).
Proof.
  intros [] (_ & _ & _ & _ & _ & _ & _ & _ & -> & ->)%submitPassportData_Ok. simpl in *.
  split; simpl; rewrite ?opened_ids_app, ?app_nil_r; simpl; try done.
  - intros k. rewrite mget_insert. case_decide as Hk; [done|]. intros Hf.
    rewrite lookup_insert_ne by done. auto.
  - intros u. rewrite never_app. simpl.
    intros [Hn [Hu%negb_true_iff%N.eqb_neq _]%andb_true_iff]%andb_true_iff.
    rewrite lookup_insert_ne by done. auto.
  - intros u. rewrite never_app. intros [Hn _]%andb_true_iff. auto.
Qed.

Lemma wf_requestVerify attr field cmp s log env user b q s' evs :
  wf (s, log) -> requestVerify attr field cmp env user b q s = Ok (s', evs) ->
  wf (s', log ++ evs).
Proof.
  intros [] (_ & _ & _ & _ & _ & _ & _ & _ & Hfit & -> & ->)%requestVerify_Ok. simpl in *.
  split; simpl; rewrite ?opened_ids_app, ?app_nil_r; simpl; try done.
  - intros u. rewrite never_app. intros [Hn _]%andb_true_iff. auto.
  - intros u. rewrite never_app. simpl.
    intros [Hn [Hu%negb_true_iff%N.eqb_neq _]%andb_true_iff]%andb_true_iff.
    rewrite lookup_insert_ne by done. auto.
Qed.

Lemma wf_myCallback s log env r c p s' evs :
  wf (s, log) -> myCallback env r c p s = Ok (s', evs) -> wf (s', log ++ evs).
Proof.
  intros [] (_ & _ & _ & res & _ & -> & ->)%myCallback_Ok. simpl in *.
  split; simpl; rewrite ?opened_ids_app, ?app_nil_r; simpl; try done.
  - intros u. rewrite never_app. intros [Hn _]%andb_true_iff. auto.
  - intros u. rewrite never_app. intros [Hn _]%andb_true_iff. auto.
Qed.

Lemma wf_exec s log env c s' evs :
  well_typed (env, c) = true ->
  wf (s, log) -> exec env c s = Ok (s', evs) -> wf (s', log ++ evs).
Proof.
  intros Hty Hwf Hc. destruct (admin_call c) eqn:Ha; [by eapply wf_admin_call|].
  destruct c; try discriminate Ha; simpl in Hc;
    eauto using wf_openNewBatch, wf_closeCurrentBatch, wf_submitPassportData,
      wf_requestVerify, wf_myCallback.
Qed.

Theorem reachable_wf w : reachable w -> wf w.
Proof. apply reachable_invariant; [apply wf_constructor | apply wf_exec]. Qed.
End WellFormed.

(** ** Decryption contexts across calls *)

Section Contexts.
Context `{External}.

(** What a successful call can do to the context of an issued request: leave
    it as it is, or (an accepted callback for it) set its processed flag. *)
Lemma exec_context s env c s' evs r :
  exec env c s = Ok (s', evs) -> r < counterRequest s ->
  r < counterRequest s' /\
  ((decryptionContexts s').[r] = (decryptionContexts s).[r] \/
   (processed (decryptionContexts s).[r] = false /\
    stateHash (decryptionContexts s).[r] = keccak256_encode [0] this /\
    processed (decryptionContexts s').[r] = true)).
Proof.
  intros Hc Hr. destruct (admin_call c) eqn:Ha.
  { destruct (admin_call_Ok _ _ _ _ _ Ha Hc) as (_ & _ & _ & _ & _ & _ & _ & -> & -> & _).
    auto. }
  destruct c; try discriminate Ha; simpl in Hc.
  - apply openNewBatch_Ok in Hc as (_ & _ & -> & _). auto.
  - apply closeCurrentBatch_Ok in Hc as (_ & _ & _ & -> & _). auto.
  - apply submitPassportData_Ok in Hc as (_ & _ & _ & _ & _ & _ & _ & _ & -> & _). auto.
  - unfold requestVerifyNationality in Hc.
    apply requestVerify_Ok in Hc as (_ & _ & _ & _ & _ & _ & _ & _ & _ & -> & _).
    simpl. rewrite mget_insert_ne by lia. split; [lia|auto].
  - unfold requestVerifyVisaStatus in Hc.
    apply requestVerify_Ok in Hc as (_ & _ & _ & _ & _ & _ & _ & _ & _ & -> & _).
    simpl. rewrite mget_insert_ne by lia. split; [lia|auto].
  - apply myCallback_Ok in Hc as (Hp & Hh & _ & res & _ & -> & _). simpl.
    split; [done|]. rewrite mget_insert. case_decide as Hq; [subst; auto | auto].
Qed.

Lemma contexts_issued_exec s env c s' evs :
  keccak256_encode [0] this ≠ 0 ->
  contexts_issued s -> exec env c s = Ok (s', evs) -> contexts_issued s'.
Proof.
  intros Hk Hs Hc. destruct (admin_call c) eqn:Ha.
  { destruct (admin_call_Ok _ _ _ _ _ Ha Hc) as (_ & _ & _ & _ & _ & _ & _ & Hx & Hn & _).
    unfold contexts_issued. by rewrite Hx, Hn. }
  destruct c; try discriminate Ha; simpl in Hc.
  - apply openNewBatch_Ok in Hc as (_ & _ & -> & _). done.
  - apply closeCurrentBatch_Ok in Hc as (_ & _ & _ & -> & _). done.
  - apply submitPassportData_Ok in Hc as (_ & _ & _ & _ & _ & _ & _ & _ & -> & _). done.
  - unfold requestVerifyNationality in Hc.
    apply requestVerify_Ok in Hc as (_ & _ & _ & _ & _ & _ & _ & _ & _ & -> & _).
    intros r Hr. simpl in *. rewrite lookup_insert_ne by lia. apply Hs. lia.
  - unfold requestVerifyVisaStatus in Hc.
    apply requestVerify_Ok in Hc as (_ & _ & _ & _ & _ & _ & _ & _ & _ & -> & _).
    intros r Hr. simpl in *. rewrite lookup_insert_ne by lia. apply Hs. lia.
  - apply myCallback_Ok in Hc as (_ & Hh & _ & res & _ & -> & _).
    intros r' Hr. simpl in *. rewrite lookup_insert_ne; [by apply Hs|].
    intros <-. rewrite (mget_None _ _ (Hs _ Hr)) in Hh. simpl in Hh. congruence.
Qed.

Lemma reachable_contexts_issued w :
  keccak256_encode [0] this ≠ 0 -> reachable w -> contexts_issued w.1.
Proof.
  intros Hk. apply (reachable_invariant (fun w => contexts_issued w.1)).
  - intros d r _. done.
  - intros s log env c s' evs _. simpl. by apply contexts_issued_exec.
Qed.

(** Once processed, always processed. *)
Lemma processed_stable r txs w :
  r < counterRequest w.1 -> processed (decryptionContexts w.1).[r] = true ->
  r < counterRequest (run txs w).1 /\
  processed (decryptionContexts (run txs w).1).[r] = true.
Proof.
  intros Hr Hp.
  apply (run_invariant (fun w => r < counterRequest w.1 /\
                                 processed (decryptionContexts w.1).[r] = true)); [|done].
  clear. intros s log env c s' evs [Hr Hp] Hc. simpl in *.
  destruct (exec_context _ _ _ _ _ _ Hc Hr) as [Hr' [->|(Hf & _)]]; [done|congruence].
Qed.

(** A context whose stored hash differs from the rebuilt one is never
    touched again. *)
Lemma mismatching_context_stable r txs w :
  r < counterRequest w.1 ->
  stateHash (decryptionContexts w.1).[r] ≠ keccak256_encode [0] this ->
  (decryptionContexts (run txs w).1).[r] = (decryptionContexts w.1).[r].
Proof.
  intros Hr Hh.
  cut (r < counterRequest (run txs w).1 /\
       (decryptionContexts (run txs w).1).[r] = (decryptionContexts w.1).[r]); [by intros []|].
  apply (run_invariant (fun w' => r < counterRequest w'.1 /\
           (decryptionContexts w'.1).[r] = (decryptionContexts w.1).[r])); [|done].
  intros s log env c s' evs [Hr' Hsame] Hc. simpl in *.
  destruct (exec_context _ _ _ _ _ _ Hc Hr') as [Hr'' [->|(_ & Hm & _)]]; [done|].
  rewrite Hsame in Hm. done.
Qed.

Lemma myCallback_processed env r c p s :
  processed (decryptionContexts s).[r] = true -> myCallback env r c p s = Revert ReplayDetected.
Proof. unfold myCallback. by intros ->. Qed.

Lemma myCallback_mismatch env r c p s :
  processed (decryptionContexts s).[r] = false ->
  stateHash (decryptionContexts s).[r] ≠ keccak256_encode [0] this ->
  myCallback env r c p s = Revert StateMismatch.
Proof.
  unfold myCallback, _rebuildStateHashForCallback, _hashCiphertexts. intros -> Hh.
  by destruct (N.eqb_spec (keccak256_encode [0] this) (stateHash (decryptionContexts s).[r])).
Qed.
End Contexts.

(** ** The callback binding check (C1) *)

(** C1. After a request is issued, the callback for it is answered
    [StateMismatch] in every later state, also when nothing at all happened in
    between, as soon as the digest of the requested ciphertext differs from
    the digest of the zero word that [_rebuildStateHashForCallback] hashes:
    the recomputed hash never equals the stored one and proof verification is
    never reached. Both request functions are instances of [requestVerify]. *)
Theorem C1_callback_rejects_unchanged_state `{External}
    attr field cmp env user b q s s' evs :
  requestVerify attr field cmp env user b q s = Ok (s', evs) ->
  keccak256_encode [toBytes32 (cmp (field (userPassportData s).[(b, user)]) q)] this
    ≠ keccak256_encode [0] this ->
  forall txs log env' c p,
    myCallback env' (counterRequest s) c p (run txs (s', log)).1 = Revert StateMismatch.
Proof.
  intros Hreq Hne txs log env' c p.
  apply requestVerify_Ok in Hreq as (_ & _ & _ & _ & _ & _ & _ & _ & Hfit & -> & _).
  set (s1 := set_lastDecryptionRequestTime _ _).
  assert (Hctx : (decryptionContexts s1).[counterRequest s] =
                 mkDecryptionContext b
                   (_hashCiphertexts [toBytes32 (cmp (field (userPassportData s).[(b, user)]) q)])
                   false).
  { subst s1. simpl. by rewrite mget_insert_eq. }
  assert (Hlt : counterRequest s < counterRequest (s1, log).1) by (subst s1; simpl; lia).
  assert (Hh : stateHash (decryptionContexts (s1, log).1).[counterRequest s]
               ≠ keccak256_encode [0] this) by (cbn [fst]; by rewrite Hctx).
  pose proof (mismatching_context_stable _ txs _ Hlt Hh) as Hsame. cbn [fst] in Hsame.
  apply myCallback_mismatch; rewrite Hsame, Hctx; done.
Qed.

Lemma C1_callback_rejects_unchanged_state_witness :
  let s := (sample_run history_closed).1 in
  exists s' evs,
    requestVerifyNationality (H:=sample_external) (at_time 2 300) 7 1 11 s = Ok (s', evs) /\
    myCallback (H:=sample_external) (at_time 9 400) (counterRequest s)
      cleartext_true some_proof s' = Revert StateMismatch.
Proof.
  intros s.
  destruct (requestVerifyNationality (H:=sample_external) (at_time 2 300) 7 1 11 s)
    as [[s' evs]|e] eqn:Hreq; [|vm_compute in Hreq; discriminate Hreq].
  exists s', evs. split; [reflexivity|].
  apply (C1_callback_rejects_unchanged_state (H:=sample_external)
           Nationality encryptedNationality FHE_eq (at_time 2 300) 7 1 11 s s' evs Hreq
           ltac:(intros Heq; vm_compute in Heq; discriminate Heq) [] [] (at_time 9 400) cleartext_true some_proof).
Defined.

(** ** Replay protection (C3) *)

(** C3. Under a digest that never yields the zero word, in every reachable
    state: identifiers not handed out yet have no context; a callback for an
    identifier without a context is rejected; a callback for a processed
    context fails with [ReplayDetected]; and a callback that succeeds found
    the flag false, after which the flag is true in every later state and
    every further callback for that identifier fails with [ReplayDetected]. *)
Theorem C3_callback_at_most_once `{External} w :
  keccak256_encode [0] this ≠ 0 ->
  reachable w ->
  (forall r, counterRequest w.1 <= r -> decryptionContexts w.1 !! r = None) /\
  (forall env r c p,
      decryptionContexts w.1 !! r = None -> myCallback env r c p w.1 = Revert StateMismatch) /\
  (forall env r c p,
      processed (decryptionContexts w.1).[r] = true ->
      myCallback env r c p w.1 = Revert ReplayDetected) /\
  (forall env r c p s' evs,
      myCallback env r c p w.1 = Ok (s', evs) ->
      processed (decryptionContexts w.1).[r] = false /\
      forall txs,
        processed (decryptionContexts (run txs (s', w.2 ++ evs)).1).[r] = true /\
        forall env' c' p',
          myCallback env' r c' p' (run txs (s', w.2 ++ evs)).1 = Revert ReplayDetected).
Proof.
  intros Hk Hw. pose proof (reachable_contexts_issued _ Hk Hw) as Hiss.
  split; [exact Hiss|]. split; [|split].
  - intros env r c p Hnone. apply myCallback_mismatch; rewrite (mget_None _ _ Hnone); simpl; auto.
  - intros. by apply myCallback_processed.
  - intros env r c p s' evs Hc.
    assert (r < counterRequest w.1) as Hlt.
    { destruct (N.lt_ge_cases r (counterRequest w.1)) as [|Hge]; [done|].
      apply myCallback_Ok in Hc as (_ & Hh & _).
      rewrite (mget_None _ _ (Hiss _ Hge)) in Hh. simpl in Hh. congruence. }
    apply myCallback_Ok in Hc as (Hp & _ & _ & res & _ & -> & _).
    split; [done|]. intros txs.
    set (w1 := (set_decryptionContexts _ _, _)).
    assert (r < counterRequest w1.1) as Hlt1 by done.
    assert (processed (decryptionContexts w1.1).[r] = true) as Hp1.
    { subst w1. simpl. by rewrite mget_insert_eq. }
    destruct (processed_stable r txs w1 Hlt1 Hp1) as [_ Hp2].
    split; [done|]. intros. by apply myCallback_processed.
Qed.

Lemma C3_callback_at_most_once_witness :
  let w := constant_digest_run history_requested in
  exists s' evs,
    myCallback (H:=constant_digest_external) (at_time 9 400) 0 cleartext_true some_proof w.1
      = Ok (s', evs) /\
    myCallback (H:=constant_digest_external) (at_time 9 500) 0 cleartext_true some_proof s'
      = Revert ReplayDetected /\
    myCallback (H:=constant_digest_external) (at_time 9 400) 5 cleartext_true some_proof w.1
      = Revert StateMismatch.
Proof.
  intros w.
  assert (Hk : @keccak256_encode constant_digest_external [0] (@this constant_digest_external) ≠ 0)
    by (intros Heq; vm_compute in Heq; discriminate Heq).
  assert (Hw : reachable (H:=constant_digest_external) w)
    by (exists (at_time 1 0), history_requested; split; reflexivity).
  destruct (C3_callback_at_most_once (H:=constant_digest_external) w Hk Hw)
    as (_ & Hunknown & _ & Honce).
  destruct (myCallback (H:=constant_digest_external) (at_time 9 400) 0 cleartext_true
              some_proof w.1) as [[s' evs]|e] eqn:Hc; [|vm_compute in Hc; discriminate Hc].
  exists s', evs. split; [reflexivity|]. split.
  - destruct (Honce _ _ _ _ _ _ Hc) as [_ Hlater].
    destruct (Hlater []) as [_ Hreplay]. apply Hreplay.
  - apply Hunknown. vm_compute. reflexivity.
Defined.

(** ** Batch lifecycle (C2, C9) *)

Lemma StronglySorted_lt_NoDup (l : list N) : StronglySorted N.lt l -> NoDup l.
Proof.
  induction 1 as [|x l Hl IH Hx]; constructor; [|done].
  intros Hin. rewrite Forall_forall in Hx. apply Hx in Hin. lia.
Qed.

Section Batches.
Context `{External}.

(** How a successful call moves the batch counter and the batch table. *)
Lemma exec_batches s env c s' evs :
  exec env c s = Ok (s', evs) ->
  (c = CallOpenNewBatch /\
   currentBatchId s' = currentBatchId s + 1 /\
   batches s' = <[currentBatchId s + 1 := mkBatch true (block_timestamp env) 0]> (batches s) /\
   opened_ids evs = [currentBatchId s + 1]) \/
  (c = CallCloseCurrentBatch /\
   isOpen (batches s).[currentBatchId s] = true /\
   currentBatchId s' = currentBatchId s + 1 /\
   batches s' = <[currentBatchId s :=
                    mkBatch false (createdAt (batches s).[currentBatchId s])
                      (block_timestamp env)]> (batches s) /\
   opened_ids evs = []) \/
  (c ≠ CallOpenNewBatch /\
   currentBatchId s' = currentBatchId s /\ batches s' = batches s /\ opened_ids evs = []).
Proof.
  intros Hc. destruct (admin_call c) eqn:Ha.
  { destruct (admin_call_Ok _ _ _ _ _ Ha Hc) as (_ & _ & _ & -> & -> & _ & _ & _ & _ & _ & -> & _).
    right; right. repeat split. by intros ->. }
  destruct c; try discriminate Ha; simpl in Hc.
  - apply openNewBatch_Ok in Hc as (_ & _ & -> & ->). left. done.
  - apply closeCurrentBatch_Ok in Hc as (_ & ? & _ & -> & ->). right; left. done.
  - apply submitPassportData_Ok in Hc as (_ & _ & _ & _ & _ & _ & _ & _ & -> & ->).
    right; right. done.
  - unfold requestVerifyNationality in Hc.
    apply requestVerify_Ok in Hc as (_ & _ & _ & _ & _ & _ & _ & _ & _ & -> & ->).
    right; right. done.
  - unfold requestVerifyVisaStatus in Hc.
    apply requestVerify_Ok in Hc as (_ & _ & _ & _ & _ & _ & _ & _ & _ & -> & ->).
    right; right. done.
  - apply myCallback_Ok in Hc as (_ & _ & _ & res & _ & -> & ->). right; right. done.
Qed.

Lemma closeCurrentBatch_not_open env s :
  isOpen (batches s).[currentBatchId s] = false ->
  msg_sender env = owner s ->
  closeCurrentBatch env s = Revert BatchClosed.
Proof.
  intros Ho Hs. unfold closeCurrentBatch, onlyOwner, _closeBatch.
  by rewrite Hs, N.eqb_refl, Ho.
Qed.

Lemma submitPassportData_not_open env user n v s :
  isOpen (batches s).[currentBatchId s] = false ->
  (isProvider s).[msg_sender env] = true ->
  paused s = false ->
  (lastSubmissionTime s).[user] + cooldownSeconds s <= MAX_UINT256 ->
  (lastSubmissionTime s).[user] + cooldownSeconds s <= block_timestamp env ->
  submitPassportData env user n v s = Revert BatchClosed.
Proof.
  intros Ho Hp Hpa Hfit Hcd.
  unfold submitPassportData, onlyProvider, whenNotPaused, respectCooldown, bind, checked_add.
  rewrite Hp, Hpa, Ho. simpl.
  destruct (N.leb_spec ((lastSubmissionTime s).[user] + cooldownSeconds s) MAX_UINT256); [|lia].
  by destruct (N.ltb_spec (block_timestamp env)
                 ((lastSubmissionTime s).[user] + cooldownSeconds s)); [lia|].
Qed.

(** Until [openNewBatch] is called, an unopened current batch stays the
    current batch and stays unopened. *)
Lemma unopened_current_stays k txs w :
  Forall (fun tx => tx.2 ≠ CallOpenNewBatch) txs ->
  currentBatchId w.1 = k -> batches w.1 !! k = None ->
  currentBatchId (run txs w).1 = k /\ batches (run txs w).1 !! k = None.
Proof.
  intros Htxs. revert w. induction Htxs as [|tx txs Htx _ IH]; intros w Hk Hb; [done|].
  rewrite run_cons. apply IH; unfold step;
    destruct (exec tx.1 tx.2 w.1) as [[s' evs]|e] eqn:Hc; try done; simpl;
    destruct (exec_batches _ _ _ _ _ Hc)
      as [(? & _)|[(_ & Ho & _)|(_ & Hcur & Hbs & _)]]; try done;
    try (rewrite Hk, (mget_None _ _ Hb) in Ho; discriminate Ho);
    congruence.
Qed.

(** A skipped id stays skipped, whatever is called. *)
Lemma skipped_id_stays k txs w :
  k <= currentBatchId w.1 -> batches w.1 !! k = None -> k ∉ opened_ids w.2 ->
  batches (run txs w).1 !! k = None /\ k ∉ opened_ids (run txs w).2.
Proof.
  intros Hk Hb Hn.
  cut (k <= currentBatchId (run txs w).1 /\
       batches (run txs w).1 !! k = None /\ k ∉ opened_ids (run txs w).2); [tauto|].
  apply (run_invariant (fun w => k <= currentBatchId w.1 /\
                                 batches w.1 !! k = None /\ k ∉ opened_ids w.2)); [|done].
  clear. intros s log env c s' evs (Hk & Hb & Hn) Hc. simpl in *.
  rewrite opened_ids_app.
  destruct (exec_batches _ _ _ _ _ Hc)
    as [(_ & -> & -> & ->)|[(_ & Ho & -> & -> & ->)|(_ & -> & -> & ->)]].
  - split; [lia|]. split; [rewrite lookup_insert_ne by lia; done|].
    rewrite elem_of_app, list_elem_of_singleton. intros [?|?]; [done|lia].
  - assert (currentBatchId s ≠ k).
    { intros <-. rewrite (mget_None _ _ Hb) in Ho. discriminate Ho. }
    split; [lia|]. split; [rewrite lookup_insert_ne by done; done|].
    by rewrite app_nil_r.
  - by rewrite app_nil_r.
Qed.
End Batches.

(** C2, as stated, fails: after [openNewBatch] batches 1 and 2 are both open,
    and after [closeCurrentBatch] no batch is open. *)
Lemma C2_counterexample :
  ~ exactly_one_open (sample_run [(at_time 1 50, CallOpenNewBatch)]).1 /\
  ~ exactly_one_open (sample_run [(at_time 1 50, CallCloseCurrentBatch)]).1.
Proof.
  split.
  - intros (id & _ & Huniq).
    assert (1 = id) by (apply Huniq; vm_compute; reflexivity).
    assert (2 = id) by (apply Huniq; vm_compute; reflexivity).
    lia.
  - intros (id & Hopen & _).
    assert (Hb : batches (sample_run [(at_time 1 50, CallCloseCurrentBatch)]).1
                 = <[1 := mkBatch false 0 50]> ∅) by (vm_compute; reflexivity).
    rewrite Hb, mget_insert in Hopen. case_decide; discriminate Hopen.
Qed.

(** C2, amended. In every reachable state the ids of the batches opened so
    far are strictly increasing, hence never reused, and every open batch has
    an id between 1 and [currentBatchId]; [openNewBatch] opens the id after
    [currentBatchId], which no batch ever had, and leaves every other batch,
    open or not, as it was; [closeCurrentBatch] opens nothing and leaves
    [currentBatchId] at a batch that is not open. *)
Theorem C2_opened_ids_strictly_increase `{External} w :
  reachable w ->
  StronglySorted N.lt (opened_ids w.2) /\
  NoDup (opened_ids w.2) /\
  (forall id, isOpen (batches w.1).[id] = true -> 1 <= id <= currentBatchId w.1) /\
  (forall env s' evs,
      openNewBatch env w.1 = Ok (s', evs) ->
      evs = [Event.BatchOpened (currentBatchId w.1 + 1)] /\
      currentBatchId s' = currentBatchId w.1 + 1 /\
      batches w.1 !! (currentBatchId w.1 + 1) = None /\
      isOpen (batches s').[currentBatchId w.1 + 1] = true /\
      forall id, id ≠ currentBatchId w.1 + 1 -> (batches s').[id] = (batches w.1).[id]) /\
  (forall env s' evs,
      closeCurrentBatch env w.1 = Ok (s', evs) ->
      opened_ids evs = [] /\
      currentBatchId s' = currentBatchId w.1 + 1 /\
      isOpen (batches s').[currentBatchId s'] = false).
Proof.
  intros Hw. destruct (reachable_wf _ Hw).
  assert (Hnext : batches w.1 !! (currentBatchId w.1 + 1) = None).
  { destruct (batches w.1 !! (currentBatchId w.1 + 1)) eqn:Hb; [|done].
    assert (1 <= currentBatchId w.1 + 1 <= currentBatchId w.1) by eauto. lia. }
  split; [done|]. split; [by apply StronglySorted_lt_NoDup|]. split; [|split].
  - intros id Ho. apply wf_batches0. unfold mget in Ho.
    destruct (batches w.1 !! id); [done|discriminate Ho].
  - intros env s' evs (_ & _ & -> & ->)%openNewBatch_Ok. simpl.
    split; [done|]. split; [done|]. split; [done|].
    split; [by rewrite mget_insert_eq|]. intros id Hid. by rewrite mget_insert_ne.
  - intros env s' evs (_ & _ & _ & -> & ->)%closeCurrentBatch_Ok. simpl.
    split; [done|]. split; [done|].
    rewrite mget_insert_ne by lia. by rewrite (mget_None _ _ Hnext).
Qed.

Lemma C2_opened_ids_strictly_increase_witness :
  let w := sample_run history_reopened in
  opened_ids w.2 = [1; 2; 4] /\ StronglySorted N.lt (opened_ids w.2).
Proof.
  intros w. split; [vm_compute; reflexivity|].
  apply (C2_opened_ids_strictly_increase (H:=sample_external) w).
  exists (at_time 1 0), history_reopened. split; reflexivity.
Defined.

(** C9, as stated, fails: when [openNewBatch] was called while batch 1 was
    open, a successful [closeCurrentBatch] closes batch 2 and batch 1 is
    still open. *)
Lemma C9_counterexample :
  let s := (sample_run [(at_time 1 50, CallOpenNewBatch)]).1 in
  match closeCurrentBatch (at_time 1 60) s with
  | Ok (s', _) => isOpen (batches s').[1] = true
  | Revert _ => False
  end.
Proof. intros s. vm_compute. reflexivity. Qed.

(** C9, amended. After a successful [closeCurrentBatch] in a reachable state,
    [currentBatchId] names a batch that was never created (no entry: [isOpen]
    false, [createdAt] 0). Until the next [openNewBatch] it stays the current
    batch, every [submitPassportData] that passes the provider, pause and
    cooldown guards fails with [BatchClosed], and every [closeCurrentBatch] by
    the owner fails with [BatchClosed]. Whatever is called afterwards, that id
    is never opened. Batches other than the one just closed are left as they
    were, so an earlier batch may still be open. *)
Theorem C9_reserved_batch_id_is_skipped `{External} w env s' evs :
  reachable w ->
  closeCurrentBatch env w.1 = Ok (s', evs) ->
  batches s' !! currentBatchId s' = None /\
  isOpen (batches s').[currentBatchId s'] = false /\
  createdAt (batches s').[currentBatchId s'] = 0 /\
  (forall id, id ≠ currentBatchId w.1 -> (batches s').[id] = (batches w.1).[id]) /\
  (forall txs,
      Forall (fun tx => tx.2 ≠ CallOpenNewBatch) txs ->
      currentBatchId (run txs (s', w.2 ++ evs)).1 = currentBatchId s' /\
      (forall env' user n v,
          (isProvider (run txs (s', w.2 ++ evs)).1).[msg_sender env'] = true ->
          paused (run txs (s', w.2 ++ evs)).1 = false ->
          (lastSubmissionTime (run txs (s', w.2 ++ evs)).1).[user]
            + cooldownSeconds (run txs (s', w.2 ++ evs)).1 <= MAX_UINT256 ->
          (lastSubmissionTime (run txs (s', w.2 ++ evs)).1).[user]
            + cooldownSeconds (run txs (s', w.2 ++ evs)).1 <= block_timestamp env' ->
          submitPassportData env' user n v (run txs (s', w.2 ++ evs)).1 = Revert BatchClosed) /\
      (forall env',
          msg_sender env' = owner (run txs (s', w.2 ++ evs)).1 ->
          closeCurrentBatch env' (run txs (s', w.2 ++ evs)).1 = Revert BatchClosed)) /\
  (forall txs,
      batches (run txs (s', w.2 ++ evs)).1 !! currentBatchId s' = None /\
      currentBatchId s' ∉ opened_ids (run txs (s', w.2 ++ evs)).2).
Proof.
  intros Hw Hc. destruct (reachable_wf _ Hw).
  apply closeCurrentBatch_Ok in Hc as (_ & Hopen & Hfit & -> & ->). simpl.
  assert (Hnone : batches w.1 !! (currentBatchId w.1 + 1) = None).
  { destruct (batches w.1 !! (currentBatchId w.1 + 1)) eqn:Hb; [|done].
    assert (1 <= currentBatchId w.1 + 1 <= currentBatchId w.1) by eauto. lia. }
  assert (Hnone' : <[currentBatchId w.1 :=
                       mkBatch false (createdAt (batches w.1).[currentBatchId w.1])
                         (block_timestamp env)]> (batches w.1)
                   !! (currentBatchId w.1 + 1) = None)
    by (rewrite lookup_insert_ne by lia; done).
  split; [done|]. rewrite (mget_None _ _ Hnone').
  split; [done|]. split; [done|]. split; [intros id Hid; by rewrite mget_insert_ne|].
  split.
  - intros txs Htxs.
    match goal with |- context [run txs ?w0] => set (w1 := w0) end.
    destruct (unopened_current_stays (currentBatchId w.1 + 1) txs w1 Htxs eq_refl Hnone')
      as [Hcur Hb].
    assert (isOpen (batches (run txs w1).1).[currentBatchId (run txs w1).1] = false) as Hclosed
      by (rewrite Hcur, (mget_None _ _ Hb); done).
    split; [done|]. split.
    + intros. by apply submitPassportData_not_open.
    + intros. by apply closeCurrentBatch_not_open.
  - intros txs. apply skipped_id_stays; simpl; [lia|done|].
    rewrite opened_ids_app, app_nil_r. intros Hin.
    rewrite Forall_forall in wf_opened_bound0. apply wf_opened_bound0 in Hin. lia.
Qed.

Lemma C9_reserved_batch_id_is_skipped_witness :
  let w := sample_run history_submitted in
  exists s' evs,
    closeCurrentBatch (at_time 1 200) w.1 = Ok (s', evs) /\
    currentBatchId s' = 2 /\
    submitPassportData (at_time 2 250) 8 11 13 s' = Revert BatchClosed /\
    closeCurrentBatch (at_time 1 260) s' = Revert BatchClosed /\
    2 ∉ opened_ids (run (H:=sample_external)
                      [(at_time 1 300, CallOpenNewBatch); (at_time 1 400, CallOpenNewBatch)]
                      (s', w.2 ++ evs)).2.
Proof.
  intros w.
  destruct (closeCurrentBatch (at_time 1 200) w.1)
    as [[s' evs]|e] eqn:Hc; [|vm_compute in Hc; discriminate Hc].
  assert (Hw : reachable (H:=sample_external) w)
    by (exists (at_time 1 0), history_submitted; split; reflexivity).
  destruct (C9_reserved_batch_id_is_skipped (H:=sample_external) w _ s' evs Hw Hc)
    as (_ & _ & _ & _ & Hbefore & Hskip).
  assert (Hs : s' = (sample_run history_closed).1).
  { vm_compute in Hc. injection Hc as <- _. vm_compute. reflexivity. }
  exists s', evs. split; [reflexivity|].
  assert (Hcur : currentBatchId s' = 2) by (rewrite Hs; vm_compute; reflexivity).
  split; [done|].
  destruct (Hbefore [] (Forall_nil_2 _)) as (_ & Hsub & Hclose). simpl in Hsub, Hclose.
  split; [|split].
  - apply Hsub; rewrite Hs; vm_compute; done.
  - apply Hclose; rewrite Hs; vm_compute; done.
  - rewrite <- Hcur. apply Hskip.
Defined.

(** ** Cooldowns (C7, C10) *)

Lemma respectCooldown_cases {A} env s user (last : gmap N N) (body : result A) :
  respectCooldown env s user last body =
    if last.[user] + cooldownSeconds s <=? MAX_UINT256
    then if block_timestamp env <? last.[user] + cooldownSeconds s
         then Revert CooldownActive else body
    else Revert (Panic 17).
Proof. unfold respectCooldown, checked_add, bind. by destruct (_ <=? _). Qed.

(** C7, as stated, fails: with [cooldownSeconds] set to the largest [uint256]
    and a last submission at time 100, the gate is closed at time 200, yet the
    call reverts with the overflow panic of the checked addition and not with
    [CooldownActive]. *)
Lemma C7_counterexample :
  let s := (sample_run history_long_cooldown).1 in
  (lastSubmissionTime s).[7] = 100 /\
  cooldownSeconds s = MAX_UINT256 /\
  block_timestamp (at_time 2 200) < (lastSubmissionTime s).[7] + cooldownSeconds s /\
  respectCooldown (at_time 2 200) s 7 (lastSubmissionTime s) (Ok tt) = Revert (Panic 17) /\
  submitPassportData (at_time 2 200) 7 11 13 s = Revert (Panic 17).
Proof. intros s. repeat split; vm_compute; reflexivity. Qed.

(** C7, amended. When [lastActionTime + cooldownSeconds] fits in a [uint256],
    the gated body runs iff [now >= lastActionTime + cooldownSeconds] and the
    call fails with [CooldownActive] otherwise; when the sum does not fit, the
    call fails with the arithmetic panic. [setCooldown] called by the owner
    fails with [InvalidCooldown] iff the new value is zero and otherwise
    stores it in the one [cooldownSeconds] that the gate reads for every
    action kind. *)
Theorem C7_cooldown_gate_and_setCooldown {A} env s user (last : gmap N N)
    (body : result A) env_owner n :
  msg_sender env_owner = owner s ->
  (last.[user] + cooldownSeconds s <= MAX_UINT256 ->
   last.[user] + cooldownSeconds s <= block_timestamp env ->
   respectCooldown env s user last body = body) /\
  (last.[user] + cooldownSeconds s <= MAX_UINT256 ->
   block_timestamp env < last.[user] + cooldownSeconds s ->
   respectCooldown env s user last body = Revert CooldownActive) /\
  (MAX_UINT256 < last.[user] + cooldownSeconds s ->
   respectCooldown env s user last body = Revert (Panic 17)) /\
  (setCooldown env_owner n s = Revert InvalidCooldown <-> n = 0) /\
  (n ≠ 0 ->
   setCooldown env_owner n s
     = Ok (set_cooldownSeconds n s, [Event.CooldownSet (cooldownSeconds s) n]) /\
   cooldownSeconds (set_cooldownSeconds n s) = n).
Proof.
  intros Ho. rewrite respectCooldown_cases.
  split; [|split; [|split]].
  - intros Hfit Hcd. destruct (N.leb_spec (last.[user] + cooldownSeconds s) MAX_UINT256); [|lia].
    by destruct (N.ltb_spec (block_timestamp env) (last.[user] + cooldownSeconds s)); [lia|].
  - intros Hfit Hcd. destruct (N.leb_spec (last.[user] + cooldownSeconds s) MAX_UINT256); [|lia].
    by destruct (N.ltb_spec (block_timestamp env) (last.[user] + cooldownSeconds s)); [|lia].
  - intros Hover.
    by destruct (N.leb_spec (last.[user] + cooldownSeconds s) MAX_UINT256); [lia|].
  - unfold setCooldown, onlyOwner. rewrite Ho, N.eqb_refl. simpl.
    destruct (N.eqb_spec n 0) as [->|Hn].
    + split; [done|]. by intros [].
    + split; [|done]. split; [discriminate|done].
Qed.

Lemma C7_cooldown_gate_and_setCooldown_witness :
  let s := (sample_run history_submitted).1 in
  respectCooldown (at_time 2 129) s 7 (lastSubmissionTime s) (Ok tt) = Revert CooldownActive /\
  respectCooldown (at_time 2 130) s 7 (lastSubmissionTime s) (Ok tt) = Ok tt /\
  (setCooldown (at_time 1 140) 0 s = Revert InvalidCooldown <-> 0 = 0).
Proof.
  intros s.
  destruct (C7_cooldown_gate_and_setCooldown (at_time 2 129) s 7 (lastSubmissionTime s)
              (Ok tt) (at_time 1 140) 0 eq_refl) as (_ & Hactive & _ & Hzero & _).
  destruct (C7_cooldown_gate_and_setCooldown (at_time 2 130) s 7 (lastSubmissionTime s)
              (Ok tt) (at_time 1 140) 0 eq_refl) as (Hpass & _).
  split; [|split].
  - apply Hactive; vm_compute; done.
  - apply Hpass; vm_compute; intros [=].
  - exact Hzero.
Defined.

(** C10, as stated, fails: before [cooldownSeconds] have elapsed, the first
    submission naming a user fails with [NotProvider] when the caller is not a
    provider and with [Paused] when the contract is paused, because both
    guards run before the cooldown gate. *)
Lemma C10_counterexample :
  let w := sample_run history_provider_added in
  let w' := sample_run (history_provider_added ++ [(at_time 1 15, CallPause)]) in
  never is_submission_for 7 w.2 = true /\
  block_timestamp (at_time 5 20) < cooldownSeconds w.1 /\
  submitPassportData (at_time 5 20) 7 11 13 w.1 = Revert NotProvider /\
  never is_submission_for 7 w'.2 = true /\
  block_timestamp (at_time 2 20) < cooldownSeconds w'.1 /\
  submitPassportData (at_time 2 20) 7 11 13 w'.1 = Revert Paused.
Proof. intros w w'. repeat split; vm_compute; reflexivity. Qed.

(** C10, amended. In every reachable state, an address that no successful
    submission (respectively verification request) has named so far has
    last-action time 0 for that kind; a submission (request) naming it can
    only succeed at a timestamp of at least [cooldownSeconds], and when it
    comes from a provider while the contract is not paused at an earlier
    timestamp it fails with [CooldownActive]. *)
Theorem C10_first_action_waits_for_cooldown `{External} w user :
  reachable w ->
  (never is_submission_for user w.2 = true ->
   (lastSubmissionTime w.1).[user] = 0 /\
   forall env n v,
     (is_ok (submitPassportData env user n v w.1) = true ->
      cooldownSeconds w.1 <= block_timestamp env) /\
     ((isProvider w.1).[msg_sender env] = true -> paused w.1 = false ->
      block_timestamp env < cooldownSeconds w.1 ->
      submitPassportData env user n v w.1 = Revert CooldownActive)) /\
  (never is_request_for user w.2 = true ->
   (lastDecryptionRequestTime w.1).[user] = 0 /\
   forall env b q,
     (is_ok (requestVerifyNationality env user b q w.1) = true ->
      cooldownSeconds w.1 <= block_timestamp env) /\
     (is_ok (requestVerifyVisaStatus env user b q w.1) = true ->
      cooldownSeconds w.1 <= block_timestamp env) /\
     ((isProvider w.1).[msg_sender env] = true -> paused w.1 = false ->
      block_timestamp env < cooldownSeconds w.1 ->
      requestVerifyNationality env user b q w.1 = Revert CooldownActive /\
      requestVerifyVisaStatus env user b q w.1 = Revert CooldownActive)).
Proof.
  intros Hw. destruct (reachable_wf _ Hw). split.
  - intros Hnever. pose proof (mget_None _ _ (wf_submission_clock0 _ Hnever)) as H0.
    change zero_value with 0 in H0. split; [done|]. intros env n v. split.
    + destruct (submitPassportData env user n v w.1) as [[s' evs]|e] eqn:Hc; [|done].
      intros _. apply submitPassportData_Ok in Hc as (_ & _ & _ & Hcd & _). lia.
    + intros Hp Hpa Hts. unfold submitPassportData, onlyProvider, whenNotPaused.
      rewrite Hp, Hpa. simpl. rewrite respectCooldown_cases, H0.
      destruct (N.leb_spec (0 + cooldownSeconds w.1) MAX_UINT256); [|lia].
      by destruct (N.ltb_spec (block_timestamp env) (0 + cooldownSeconds w.1)); [|lia].
  - intros Hnever. pose proof (mget_None _ _ (wf_request_clock0 _ Hnever)) as H0.
    change zero_value with 0 in H0. split; [done|]. intros env b q.
    split; [|split].
    + unfold requestVerifyNationality.
      destruct (requestVerify _ _ _ env user b q w.1) as [[s' evs]|e] eqn:Hc; [|done].
      intros _. apply requestVerify_Ok in Hc as (_ & _ & _ & Hcd & _). lia.
    + unfold requestVerifyVisaStatus.
      destruct (requestVerify _ _ _ env user b q w.1) as [[s' evs]|e] eqn:Hc; [|done].
      intros _. apply requestVerify_Ok in Hc as (_ & _ & _ & Hcd & _). lia.
    + intros Hp Hpa Hts.
      unfold requestVerifyNationality, requestVerifyVisaStatus, requestVerify,
        onlyProvider, whenNotPaused.
      rewrite Hp, Hpa. simpl. rewrite !respectCooldown_cases, H0.
      destruct (N.leb_spec (0 + cooldownSeconds w.1) MAX_UINT256); [|lia].
      by destruct (N.ltb_spec (block_timestamp env) (0 + cooldownSeconds w.1)); [|lia].
Qed.

Lemma C10_first_action_waits_for_cooldown_witness :
  let w := sample_run history_provider_added in
  (lastSubmissionTime w.1).[7] = 0 /\
  submitPassportData (at_time 2 29) 7 11 13 w.1 = Revert CooldownActive /\
  is_ok (submitPassportData (at_time 2 30) 7 11 13 w.1) = true.
Proof.
  intros w.
  assert (Hw : reachable (H:=sample_external) w)
    by (exists (at_time 1 0), history_provider_added; split; reflexivity).
  destruct (C10_first_action_waits_for_cooldown (H:=sample_external) w 7 Hw) as [Hsub _].
  destruct (Hsub eq_refl) as [Hzero Hfirst].
  split; [exact Hzero|]. split.
  - apply (Hfirst (at_time 2 29) 11 13); vm_compute; reflexivity.
  - vm_compute. reflexivity.
Defined.

(** ** Submissions (C4, C5) *)

(** C4, as stated, fails: with a cooldown of 30, a second submission for the
    same user ten seconds after a successful one is stopped by the cooldown
    gate, which runs before the duplicate check. *)
Lemma C4_counterexample :
  let s := (sample_run history_provider_added).1 in
  cooldownSeconds s = 30 /\
  match submitPassportData (at_time 2 100) 7 11 13 s with
  | Ok (s', _) => submitPassportData (at_time 2 110) 7 11 13 s' = Revert CooldownActive
  | Revert _ => False
  end.
Proof. intros s. split; vm_compute; reflexivity. Qed.

Lemma submitPassportData_Revert env user n v s e :
  submitPassportData env user n v s = Revert e -> submission_failure_cause env user n v s e.
Proof.
  unfold submitPassportData, onlyProvider, whenNotPaused. rewrite respectCooldown_cases.
  unfold _initIfNeeded, isInitialized, bind.
  destruct ((isProvider s).[msg_sender env]) eqn:Hp; simpl; [|by intros [= <-]].
  destruct (paused s) eqn:Hpa; [by intros [= <-]|].
  destruct (N.leb_spec ((lastSubmissionTime s).[user] + cooldownSeconds s) MAX_UINT256);
    [|by intros [= <-]].
  destruct (N.ltb_spec (block_timestamp env)
              ((lastSubmissionTime s).[user] + cooldownSeconds s)); [by intros [= <-]|].
  destruct (isOpen (batches s).[currentBatchId s]) eqn:Ho; simpl; [|by intros [= <-]].
  destruct ((hasSubmittedForBatch s).[(currentBatchId s, user)]) eqn:Hs; [by intros [= <-]|].
  destruct (N.eqb_spec n 0); simpl; [intros [= <-]; by left|].
  destruct (N.eqb_spec v 0); simpl; [intros [= <-]; by right|].
  done.
Qed.

(** C4, amended. After a successful submission for a user at time [t] with
    [cooldownSeconds = 30] (and [t + 30] within [uint256]), a provider's second
    submission for that user into the same state fails with [CooldownActive]
    at every time before [t + 30], [t + 10] included, and with the
    duplicate-submission revert from [t + 30] on: the duplicate check is
    reached only once the cooldown has elapsed. Every revert of
    [submitPassportData] names the check that failed, and a call that does
    not revert passed every check. *)
Theorem C4_second_submission_and_failure_causes env user n v s s' evs :
  submitPassportData env user n v s = Ok (s', evs) ->
  cooldownSeconds s = 30 ->
  block_timestamp env + 30 <= MAX_UINT256 ->
  (forall env' n' v',
      (isProvider s').[msg_sender env'] = true ->
      (block_timestamp env' < block_timestamp env + 30 ->
       submitPassportData env' user n' v' s' = Revert CooldownActive) /\
      (block_timestamp env + 30 <= block_timestamp env' ->
       submitPassportData env' user n' v' s'
         = Revert (ErrorString "User already submitted for this batch"))) /\
  (forall env0 user0 n0 v0 s0 e,
      submitPassportData env0 user0 n0 v0 s0 = Revert e ->
      submission_failure_cause env0 user0 n0 v0 s0 e) /\
  (forall env0 user0 n0 v0 s0 s1 evs0,
      submitPassportData env0 user0 n0 v0 s0 = Ok (s1, evs0) ->
      (isProvider s0).[msg_sender env0] = true /\
      paused s0 = false /\
      (lastSubmissionTime s0).[user0] + cooldownSeconds s0 <= block_timestamp env0 /\
      isOpen (batches s0).[currentBatchId s0] = true /\
      (hasSubmittedForBatch s0).[(currentBatchId s0, user0)] = false /\
      n0 ≠ 0 /\ v0 ≠ 0).
Proof.
  intros Hc Hcd Hfit. split; [|split; [intros; by apply submitPassportData_Revert|]].
  2: { intros env0 user0 n0 v0 s0 s1 evs0 H0.
       apply submitPassportData_Ok in H0 as (? & ? & _ & ? & ? & ? & ? & ? & _). done. }
  apply submitPassportData_Ok in Hc as (_ & Hpa & _ & _ & Ho & _ & _ & _ & -> & _).
  intros env' n' v' Hp. simpl in Hp.
  unfold submitPassportData, onlyProvider, whenNotPaused. rewrite respectCooldown_cases.
  simpl. rewrite Hp, Hpa, Ho, Hcd, !mget_insert_eq. simpl.
  destruct (N.leb_spec (block_timestamp env + 30) MAX_UINT256); [|lia].
  split; intros Hts;
    destruct (N.ltb_spec (block_timestamp env') (block_timestamp env + 30)); try lia; done.
Qed.

Lemma C4_second_submission_and_failure_causes_witness :
  let s := (sample_run history_provider_added).1 in
  exists s' evs,
    submitPassportData (at_time 2 100) 7 11 13 s = Ok (s', evs) /\
    submitPassportData (at_time 2 110) 7 21 23 s' = Revert CooldownActive /\
    submitPassportData (at_time 2 130) 7 21 23 s'
      = Revert (ErrorString "User already submitted for this batch").
Proof.
  intros s.
  destruct (submitPassportData (at_time 2 100) 7 11 13 s) as [[s' evs]|e] eqn:Hc;
    [|vm_compute in Hc; discriminate Hc].
  exists s', evs. split; [reflexivity|].
  destruct (C4_second_submission_and_failure_causes (at_time 2 100) 7 11 13 s s' evs Hc
              ltac:(vm_compute; reflexivity) ltac:(vm_compute; intros [=])) as [Hsecond _].
  assert (Hp : (isProvider s').[2] = true).
  { vm_compute in Hc. injection Hc as <- _. vm_compute. reflexivity. }
  split.
  - apply (Hsecond (at_time 2 110) 21 23 Hp). vm_compute. reflexivity.
  - apply (Hsecond (at_time 2 130) 21 23 Hp). vm_compute. intros [=].
Defined.

Section Submissions.
Context `{External}.

(** What a successful call can do to the stored records and their flags: a
    submission writes a slot whose flag was false, everything else leaves
    both tables alone. *)
Lemma exec_submissions s env c s' evs :
  exec env c s = Ok (s', evs) ->
  (exists user n v,
     c = CallSubmitPassportData user n v /\
     (hasSubmittedForBatch s).[(currentBatchId s, user)] = false /\
     userPassportData s' = <[(currentBatchId s, user) := mkPassportData n v]> (userPassportData s) /\
     hasSubmittedForBatch s' = <[(currentBatchId s, user) := true]> (hasSubmittedForBatch s)) \/
  (userPassportData s' = userPassportData s /\
   hasSubmittedForBatch s' = hasSubmittedForBatch s).
Proof.
  intros Hc. destruct (admin_call c) eqn:Ha.
  { destruct (admin_call_Ok _ _ _ _ _ Ha Hc) as (_ & _ & _ & _ & _ & -> & -> & _). by right. }
  destruct c; try discriminate Ha; simpl in Hc.
  - apply openNewBatch_Ok in Hc as (_ & _ & -> & _). by right.
  - apply closeCurrentBatch_Ok in Hc as (_ & _ & _ & -> & _). by right.
  - apply submitPassportData_Ok in Hc as (_ & _ & _ & _ & _ & Hf & _ & _ & -> & _).
    left. by eexists _, _, _.
  - unfold requestVerifyNationality in Hc.
    apply requestVerify_Ok in Hc as (_ & _ & _ & _ & _ & _ & _ & _ & _ & -> & _). by right.
  - unfold requestVerifyVisaStatus in Hc.
    apply requestVerify_Ok in Hc as (_ & _ & _ & _ & _ & _ & _ & _ & _ & -> & _). by right.
  - apply myCallback_Ok in Hc as (_ & _ & _ & res & _ & -> & _). by right.
Qed.

Lemma submitted_record_frozen k txs w :
  (hasSubmittedForBatch w.1).[k] = true ->
  (hasSubmittedForBatch (run txs w).1).[k] = true /\
  userPassportData (run txs w).1 !! k = userPassportData w.1 !! k.
Proof.
  intros Hf.
  apply (run_invariant (fun w' => (hasSubmittedForBatch w'.1).[k] = true /\
                                  userPassportData w'.1 !! k = userPassportData w.1 !! k));
    [|done].
  intros s log env c s' evs [Hflag Hdata] Hc. simpl in *.
  destruct (exec_submissions _ _ _ _ _ Hc)
    as [(user & n & v & _ & Hfree & -> & ->)|[-> ->]]; [|done].
  assert ((currentBatchId s, user) ≠ k) by (intros <-; congruence).
  by rewrite mget_insert_ne, lookup_insert_ne.
Qed.
End Submissions.

(** C5. Once [hasSubmittedForBatch[batchId][user]] is true, then after any
    further calls it is still true, [userPassportData[batchId][user]] is what
    it was, and no [submitPassportData] storing into that slot succeeds; a
    submission that does succeed found the flag of its slot false and leaves
    it true with the submitted record stored; hence after one successful
    submission into a slot no later one into the same slot succeeds. *)
Theorem C5_submission_is_write_once `{External} b user s :
  (hasSubmittedForBatch s).[(b, user)] = true ->
  (forall txs log,
      (hasSubmittedForBatch (run txs (s, log)).1).[(b, user)] = true /\
      userPassportData (run txs (s, log)).1 !! (b, user) = userPassportData s !! (b, user) /\
      forall env n v,
        currentBatchId (run txs (s, log)).1 = b ->
        is_ok (submitPassportData env user n v (run txs (s, log)).1) = false) /\
  (forall env n v s0 s1 evs,
      submitPassportData env user n v s0 = Ok (s1, evs) ->
      currentBatchId s0 = b ->
      (hasSubmittedForBatch s0).[(b, user)] = false /\
      (hasSubmittedForBatch s1).[(b, user)] = true /\
      (userPassportData s1).[(b, user)] = mkPassportData n v /\
      forall txs log env' n' v',
        currentBatchId (run txs (s1, log)).1 = b ->
        is_ok (submitPassportData env' user n' v' (run txs (s1, log)).1) = false).
Proof.
  assert (Hno : forall s2, (hasSubmittedForBatch s2).[(b, user)] = true ->
            forall txs log env n v,
              currentBatchId (run txs (s2, log)).1 = b ->
              is_ok (submitPassportData env user n v (run txs (s2, log)).1) = false).
  { intros s2 Hf2 txs log env n v Hcur.
    destruct (submitted_record_frozen (b, user) txs (s2, log) Hf2) as [Hflag _].
    destruct (submitPassportData env user n v (run txs (s2, log)).1) as [[s' evs]|e] eqn:Hc;
      [|done].
    apply submitPassportData_Ok in Hc as (_ & _ & _ & _ & _ & Hfree & _).
    rewrite Hcur in Hfree. congruence. }
  intros Hf. split.
  - intros txs log.
    destruct (submitted_record_frozen (b, user) txs (s, log) Hf) as [Hflag Hdata].
    split; [done|]. split; [done|]. intros. by apply Hno.
  - intros env n v s0 s1 evs Hc <-.
    pose proof Hc as (_ & _ & _ & _ & _ & Hfree & _ & _ & -> & _)%submitPassportData_Ok.
    split; [done|]. simpl. rewrite !mget_insert_eq. split; [done|]. split; [done|].
    intros txs log env' n' v'. apply Hno. simpl. by rewrite mget_insert_eq.
Qed.

Lemma C5_submission_is_write_once_witness :
  let s := (sample_run history_submitted).1 in
  (hasSubmittedForBatch s).[(1, 7)] = true /\
  userPassportData
    (run (H:=sample_external) [(at_time 2 500, CallSubmitPassportData 7 21 23)] (s, [])).1
    !! (1, 7) = Some (mkPassportData 11 13) /\
  is_ok (submitPassportData (at_time 2 500) 7 21 23 s) = false.
Proof.
  intros s.
  assert (Hf : (hasSubmittedForBatch s).[(1, 7)] = true) by (vm_compute; reflexivity).
  destruct (C5_submission_is_write_once (H:=sample_external) 1 7 s Hf) as [Hfrozen _].
  split; [exact Hf|]. split.
  - destruct (Hfrozen [(at_time 2 500, CallSubmitPassportData 7 21 23)] []) as (_ & -> & _).
    vm_compute. reflexivity.
  - destruct (Hfrozen [] []) as (_ & _ & Hno). apply Hno. vm_compute. reflexivity.
Defined.

(** ** Verification requests (C6) *)

(** C6. In every reachable state, a verification request of either kind from
    an unpaused provider that passes the cooldown gate, for a batch id between
    1 and [currentBatchId], fails with [BatchNotClosed] when that batch is
    open, and with [NotInitialized] when it is not open and the user has no
    submission stored for it. *)
Theorem C6_request_on_open_or_empty_batch `{External} w env user b q :
  reachable w ->
  (isProvider w.1).[msg_sender env] = true ->
  paused w.1 = false ->
  (lastDecryptionRequestTime w.1).[user] + cooldownSeconds w.1 <= MAX_UINT256 ->
  (lastDecryptionRequestTime w.1).[user] + cooldownSeconds w.1 <= block_timestamp env ->
  1 <= b <= currentBatchId w.1 ->
  (isOpen (batches w.1).[b] = true ->
   requestVerifyNationality env user b q w.1 = Revert BatchNotClosed /\
   requestVerifyVisaStatus env user b q w.1 = Revert BatchNotClosed) /\
  (isOpen (batches w.1).[b] = false ->
   (hasSubmittedForBatch w.1).[(b, user)] = false ->
   requestVerifyNationality env user b q w.1 = Revert NotInitialized /\
   requestVerifyVisaStatus env user b q w.1 = Revert NotInitialized).
Proof.
  intros Hw Hp Hpa Hfit Hcd Hb. destruct (reachable_wf _ Hw).
  unfold requestVerifyNationality, requestVerifyVisaStatus, requestVerify,
    onlyProvider, whenNotPaused.
  rewrite !respectCooldown_cases, Hp, Hpa. simpl.
  destruct (N.leb_spec ((lastDecryptionRequestTime w.1).[user] + cooldownSeconds w.1)
              MAX_UINT256); [|lia].
  destruct (N.ltb_spec (block_timestamp env)
              ((lastDecryptionRequestTime w.1).[user] + cooldownSeconds w.1)); [lia|].
  destruct (N.ltb_spec (currentBatchId w.1) b); [lia|].
  destruct (N.eqb_spec b 0); [lia|]. simpl.
  split.
  - by intros ->.
  - intros -> Hfree. by rewrite (mget_None _ _ (wf_data0 _ Hfree)).
Qed.

Lemma C6_request_on_open_or_empty_batch_witness :
  requestVerifyNationality (H:=sample_external) (at_time 2 300) 7 1 11
    (sample_run history_submitted).1 = Revert BatchNotClosed /\
  requestVerifyVisaStatus (H:=sample_external) (at_time 2 300) 8 1 11
    (sample_run history_closed).1 = Revert NotInitialized.
Proof.
  split.
  - assert (Hw : reachable (H:=sample_external) (sample_run history_submitted))
      by (exists (at_time 1 0), history_submitted; split; reflexivity).
    apply (C6_request_on_open_or_empty_batch (H:=sample_external)
             (sample_run history_submitted) (at_time 2 300) 7 1 11 Hw);
      vm_compute; try reflexivity; try (intros [=]); split; intros [=].
  - assert (Hw : reachable (H:=sample_external) (sample_run history_closed))
      by (exists (at_time 1 0), history_closed; split; reflexivity).
    apply (C6_request_on_open_or_empty_batch (H:=sample_external)
             (sample_run history_closed) (at_time 2 300) 8 1 11 Hw);
      vm_compute; try reflexivity; try (intros [=]); split; intros [=].
Defined.

(** ** The callback entry point (C8) *)

(** C8. [myCallback] has no caller check: it never fails with [NotOwner],
    [NotProvider], [Paused] or [CooldownActive] (its only failures are
    [ReplayDetected], [StateMismatch], [InvalidProof] and a failed decoding);
    its outcome is the same for every sender and timestamp; and when it
    succeeds the completion event carries the caller of the callback in its
    user field, with attribute 0. *)
Theorem C8_callback_has_no_caller_check `{External} env r c p s :
  (forall e, myCallback env r c p s = Revert e ->
             e = ReplayDetected \/ e = StateMismatch \/ e = InvalidProof \/ e = EmptyRevert) /\
  myCallback env r c p s ≠ Revert NotOwner /\
  myCallback env r c p s ≠ Revert NotProvider /\
  myCallback env r c p s ≠ Revert Paused /\
  myCallback env r c p s ≠ Revert CooldownActive /\
  (forall env',
      match myCallback env r c p s, myCallback env' r c p s with
      | Ok (s1, _), Ok (s2, _) => s1 = s2
      | Revert e1, Revert e2 => e1 = e2
      | _, _ => False
      end) /\
  (forall s' evs,
      myCallback env r c p s = Ok (s', evs) ->
      exists res,
        abi_decode_uint32 c = Ok res /\
        evs = [Event.DecryptionCompleted r (batchId (decryptionContexts s).[r])
                 (msg_sender env) Nationality res]).
Proof.
  assert (Herr : forall e, myCallback env r c p s = Revert e ->
             e = ReplayDetected \/ e = StateMismatch \/ e = InvalidProof \/ e = EmptyRevert).
  { intros e. unfold myCallback, abi_decode_uint32, bind.
    repeat match goal with
           | |- context [if ?b then _ else _] => destruct b
           end; intros [= <-]; auto. }
  split; [exact Herr|].
  repeat (split; [intros He; apply Herr in He as [?|[?|[?|?]]]; discriminate|]).
  split.
  - intros env'. unfold myCallback, abi_decode_uint32, bind.
    repeat match goal with
           | |- context [if ?b then _ else _] => destruct b
           end; done.
  - intros s' evs (_ & _ & _ & res & Hdec & _ & ->)%myCallback_Ok. by exists res.
Qed.

Lemma C8_callback_has_no_caller_check_witness :
  let s := (constant_digest_run history_paused).1 in
  paused s = true /\
  (isProvider s).[9] = false /\
  exists s',
    myCallback (H:=constant_digest_external) (at_time 9 400) 0 cleartext_true some_proof s
      = Ok (s', [Event.DecryptionCompleted 0 1 9 Nationality 1]).
Proof.
  intros s. split; [vm_compute; reflexivity|]. split; [vm_compute; reflexivity|].
  destruct (myCallback (H:=constant_digest_external) (at_time 9 400) 0 cleartext_true
              some_proof s) as [[s' evs]|e] eqn:Hc; [|vm_compute in Hc; discriminate Hc].
  destruct (C8_callback_has_no_caller_check (H:=constant_digest_external)
              (at_time 9 400) 0 cleartext_true some_proof s) as (_ & _ & _ & _ & _ & _ & Hev).
  destruct (Hev s' evs Hc) as (res & Hdec & ->).
  vm_compute in Hdec. injection Hdec as <-.
  exists s'. reflexivity.
Defined.

(** * Further properties of the contract *)

(** ** Access control *)

Section AccessControl.
Context `{External}.

Lemma owner_only_not_owner env c s :
  owner_only c = true -> msg_sender env ≠ owner s -> exec env c s = Revert NotOwner.
Proof.
  intros Hc Hne. apply N.eqb_neq in Hne.
  destruct c; try discriminate Hc; simpl;
    unfold transferOwnership, addProvider, removeProvider, setCooldown, pause, unpause,
      openNewBatch, closeCurrentBatch, onlyOwner; by rewrite Hne.
Qed.

Lemma provider_only_not_provider env c s :
  provider_only c = true -> (isProvider s).[msg_sender env] = false ->
  exec env c s = Revert NotProvider.
Proof.
  intros Hc Hp.
  destruct c; try discriminate Hc; simpl;
    unfold submitPassportData, requestVerifyNationality, requestVerifyVisaStatus,
      requestVerify, onlyProvider; by rewrite Hp.
Qed.

Lemma provider_only_paused env c s :
  provider_only c = true -> (isProvider s).[msg_sender env] = true -> paused s = true ->
  exec env c s = Revert Paused.
Proof.
  intros Hc Hp Hpa.
  destruct c; try discriminate Hc; simpl;
    unfold submitPassportData, requestVerifyNationality, requestVerifyVisaStatus,
      requestVerify, onlyProvider, whenNotPaused; by rewrite Hp, Hpa.
Qed.


(** A successful call either comes from the owner or leaves the
    administrative fields as they were. *)
Lemma exec_admin_view s env c s' evs :
  exec env c s = Ok (s', evs) ->
  msg_sender env = owner s \/ admin_view s' = admin_view s.
Proof.
  intros Hc. destruct (admin_call c) eqn:Ha.
  { left. by destruct (admin_call_Ok _ _ _ _ _ Ha Hc) as (? & _). }
  destruct c; try discriminate Ha; simpl in Hc.
  - apply openNewBatch_Ok in Hc as (? & _). by left.
  - apply closeCurrentBatch_Ok in Hc as (? & _). by left.
  - apply submitPassportData_Ok in Hc as (_ & _ & _ & _ & _ & _ & _ & _ & -> & _). by right.
  - unfold requestVerifyNationality in Hc.
    apply requestVerify_Ok in Hc as (_ & _ & _ & _ & _ & _ & _ & _ & _ & -> & _). by right.
  - unfold requestVerifyVisaStatus in Hc.
    apply requestVerify_Ok in Hc as (_ & _ & _ & _ & _ & _ & _ & _ & _ & -> & _). by right.
  - apply myCallback_Ok in Hc as (_ & _ & _ & res & _ & -> & _). by right.
Qed.
End AccessControl.



(** X2. After any sequence of calls none of which is sent by the owner, the
    owner, the provider set, the cooldown length, the pause flag, the batch
    counter and the batch table are what they were. *)
Theorem X2_only_owner_changes_administration `{External} txs w :
  Forall (fun tx => msg_sender tx.1 ≠ owner w.1) txs ->
  admin_view (run txs w).1 = admin_view w.1.
Proof.
  revert w. induction txs as [|tx txs IH]; intros w Htxs; [done|].
  apply Forall_cons in Htxs as [Htx Htxs]. rewrite run_cons.
  assert (Hstep : admin_view (step w tx).1 = admin_view w.1).
  { unfold step. destruct (exec tx.1 tx.2 w.1) as [[s' evs]|e] eqn:Hc; [|done].
    simpl. by destruct (exec_admin_view _ _ _ _ _ Hc) as [?|?]. }
  rewrite IH; [done|].
  assert (Ho : owner (step w tx).1 = owner w.1) by (by injection Hstep).
  by rewrite Ho.
Qed.

Lemma X2_only_owner_changes_administration_witness :
  admin_view (run (H:=sample_external)
                [(at_time 2 500, CallSetCooldown 1); (at_time 2 510, CallOpenNewBatch);
                 (at_time 2 520, CallSubmitPassportData 8 11 13);
                 (at_time 9 530, CallTransferOwnership 9)]
                (sample_run history_provider_added)).1
  = admin_view (sample_run history_provider_added).1.
Proof.
  apply (X2_only_owner_changes_administration (H:=sample_external)).
  repeat constructor; vm_compute; intros [=].
Defined.

(** X3. For the owner, [addProvider] fails with [DuplicateProvider] exactly
    when the address is already a provider and [removeProvider] fails with
    [ProviderNotAdded] exactly when it is not. Adding an address and removing
    it again gives back the provider status of every address, and once an
    address is removed each provider-gated call it sends fails with
    [NotProvider]. *)
Theorem X3_provider_registration env provider s :
  msg_sender env = owner s ->
  (addProvider env provider s = Revert DuplicateProvider <-> (isProvider s).[provider] = true) /\
  (removeProvider env provider s = Revert ProviderNotAdded
     <-> (isProvider s).[provider] = false) /\
  ((isProvider s).[provider] = false ->
   exists s1 evs1 s2 evs2,
     addProvider env provider s = Ok (s1, evs1) /\
     (isProvider s1).[provider] = true /\
     removeProvider env provider s1 = Ok (s2, evs2) /\
     forall a, (isProvider s2).[a] = (isProvider s).[a]) /\
  (forall s1 evs1,
      removeProvider env provider s = Ok (s1, evs1) ->
      forall `{External} t c,
        provider_only c = true -> exec (mkEnv provider t) c s1 = Revert NotProvider).
Proof.
  intros Ho. unfold addProvider, removeProvider, onlyOwner. rewrite Ho, N.eqb_refl. simpl.
  split; [|split; [|split]].
  - destruct ((isProvider s).[provider]); split; done.
  - destruct ((isProvider s).[provider]); split; done.
  - intros Hp. rewrite Hp. eexists _, _, _, _. split; [done|]. simpl.
    rewrite mget_insert_eq. simpl. split; [done|]. rewrite N.eqb_refl. simpl.
    split; [done|].
    intros a. simpl. rewrite !mget_insert. case_decide; [by subst|done].
  - intros s1 evs1 Hc H t c Hpc.
    destruct ((isProvider s).[provider]); [|done]. simpl in Hc. injection Hc as <- _.
    apply provider_only_not_provider; [done|]. simpl. by rewrite mget_insert_eq.
Qed.

Lemma X3_provider_registration_witness :
  removeProvider (at_time 1 400) 5 (sample_run history_submitted).1 = Revert ProviderNotAdded /\
  addProvider (at_time 1 400) 2 (sample_run history_submitted).1 = Revert DuplicateProvider.
Proof.
  destruct (X3_provider_registration (at_time 1 400) 5 (sample_run history_submitted).1
              eq_refl) as (_ & Hrem & _).
  destruct (X3_provider_registration (at_time 1 400) 2 (sample_run history_submitted).1
              eq_refl) as (Hadd & _).
  split; [apply Hrem | apply Hadd]; vm_compute; reflexivity.
Defined.

(** X4. [transferOwnership] by the owner always succeeds, to any address, the
    zero address and the owner itself included, and changes nothing but the
    owner. When the new owner is another address, every owner-gated call the
    previous owner sends afterwards fails with [NotOwner]. *)
Theorem X4_ownership_hand_over `{External} env newOwner s :
  msg_sender env = owner s ->
  transferOwnership env newOwner s
    = Ok (set_owner newOwner s, [Event.OwnershipTransferred (owner s) newOwner]) /\
  (newOwner ≠ owner s ->
   forall env' c,
     msg_sender env' = owner s -> owner_only c = true ->
     exec env' c (set_owner newOwner s) = Revert NotOwner).
Proof.
  intros Ho. split.
  - unfold transferOwnership, onlyOwner. by rewrite Ho, N.eqb_refl.
  - intros Hne env' c Hs Hc. apply owner_only_not_owner; [done|]. simpl. congruence.
Qed.

Lemma X4_ownership_hand_over_witness :
  transferOwnership (at_time 1 400) 0 (sample_run history_submitted).1
    = Ok (set_owner 0 (sample_run history_submitted).1, [Event.OwnershipTransferred 1 0]) /\
  exec (H:=sample_external) (at_time 1 410) (CallTransferOwnership 1)
    (set_owner 0 (sample_run history_submitted).1) = Revert NotOwner.
Proof.
  destruct (X4_ownership_hand_over (H:=sample_external) (at_time 1 400) 0
              (sample_run history_submitted).1 eq_refl) as [Hok Hlocked].
  split; [exact Hok|].
  apply Hlocked; [vm_compute; intros [=] | reflexivity | reflexivity].
Defined.

(** ** Pausing *)

Section Pausing.
Context `{External}.

Lemma exec_while_paused s env c s' evs :
  exec env c s = Ok (s', evs) -> paused s = true -> c ≠ CallUnpause ->
  paused s' = true /\ provider_view s' = provider_view s /\ submitted_slots evs = [].
Proof.
  intros Hc Hpa Hne. destruct c; simpl in Hc; try done.
  - unfold transferOwnership, onlyOwner in Hc.
    destruct (negb _); [done|]. by injection Hc as <- <-.
  - unfold addProvider, onlyOwner in Hc.
    destruct (negb _); [done|]. destruct (_.[_]); [done|]. by injection Hc as <- <-.
  - unfold removeProvider, onlyOwner in Hc.
    destruct (negb _); [done|]. destruct (negb _); [done|]. by injection Hc as <- <-.
  - unfold setCooldown, onlyOwner in Hc.
    destruct (negb _); [done|]. destruct (_ =? _); [done|]. by injection Hc as <- <-.
  - unfold pause, onlyOwner in Hc. destruct (negb _); [done|]. by injection Hc as <- <-.
  - apply openNewBatch_Ok in Hc as (_ & _ & -> & ->). done.
  - apply closeCurrentBatch_Ok in Hc as (_ & _ & _ & -> & ->). done.
  - apply submitPassportData_Ok in Hc as (_ & ? & _). congruence.
  - unfold requestVerifyNationality in Hc.
    apply requestVerify_Ok in Hc as (_ & ? & _). congruence.
  - unfold requestVerifyVisaStatus in Hc.
    apply requestVerify_Ok in Hc as (_ & ? & _). congruence.
  - apply myCallback_Ok in Hc as (_ & _ & _ & res & _ & -> & ->). done.
Qed.
End Pausing.

(** X5. While the pause flag is set and until [unpause] is called, whatever
    else is called: the flag stays set, no passport record, submission flag,
    cooldown clock or request counter changes, no submission is logged, and
    every provider-gated call sent by a provider fails with [Paused]. *)
Theorem X5_paused_freezes_provider_state `{External} txs w :
  paused w.1 = true ->
  Forall (fun tx => tx.2 ≠ CallUnpause) txs ->
  paused (run txs w).1 = true /\
  provider_view (run txs w).1 = provider_view w.1 /\
  submitted_slots (run txs w).2 = submitted_slots w.2 /\
  (forall env c,
      provider_only c = true -> (isProvider (run txs w).1).[msg_sender env] = true ->
      exec env c (run txs w).1 = Revert Paused).
Proof.
  intros Hpa Htxs.
  assert (Hinv : paused (run txs w).1 = true /\
                 provider_view (run txs w).1 = provider_view w.1 /\
                 submitted_slots (run txs w).2 = submitted_slots w.2).
  { revert w Hpa. induction Htxs as [|tx txs Htx _ IH]; intros w Hpa; [done|].
    rewrite run_cons. unfold step.
    destruct (exec tx.1 tx.2 w.1) as [[s' evs]|e] eqn:Hc; [|by apply IH].
    destruct (exec_while_paused _ _ _ _ _ Hc Hpa Htx) as (Hpa' & Hview & Hslots).
    destruct (IH (s', w.2 ++ evs) Hpa') as (? & ? & Hs). simpl in *.
    split; [done|]. split; [congruence|].
    rewrite Hs. unfold submitted_slots in *. by rewrite omap_app, Hslots, app_nil_r. }
  destruct Hinv as (Hpa' & Hview & Hslots).
  repeat (split; [done|]). intros env c Hc Hp. by apply provider_only_paused.
Qed.

Lemma X5_paused_freezes_provider_state_witness :
  provider_view
    (run (H:=sample_external)
       [(at_time 2 900, CallSubmitPassportData 8 11 13); (at_time 1 910, CallOpenNewBatch);
        (at_time 2 920, CallRequestVerifyVisaStatus 7 1 5)]
       (sample_run history_paused)).1
  = provider_view (sample_run history_paused).1.
Proof.
  apply (X5_paused_freezes_provider_state (H:=sample_external)
           [(at_time 2 900, CallSubmitPassportData 8 11 13); (at_time 1 910, CallOpenNewBatch);
            (at_time 2 920, CallRequestVerifyVisaStatus 7 1 5)]
           (sample_run history_paused)).
  - vm_compute. reflexivity.
  - repeat constructor; intros [=].
Defined.

(** ** Batches over time *)

Section BatchHistory.
Context `{External}.

Lemma exec_batch_record s env c s' evs id :
  exec env c s = Ok (s', evs) -> id <= currentBatchId s ->
  currentBatchId s <= currentBatchId s' /\
  createdAt (batches s').[id] = createdAt (batches s).[id] /\
  (isOpen (batches s').[id] = true -> isOpen (batches s).[id] = true) /\
  (isOpen (batches s).[id] = false ->
   batches s' !! id = batches s !! id /\
   forall u, userPassportData s' !! (id, u) = userPassportData s !! (id, u) /\
             hasSubmittedForBatch s' !! (id, u) = hasSubmittedForBatch s !! (id, u)).
Proof.
  intros Hc Hid.
  assert (Hdata : isOpen (batches s).[id] = false ->
            forall u, userPassportData s' !! (id, u) = userPassportData s !! (id, u) /\
                      hasSubmittedForBatch s' !! (id, u) = hasSubmittedForBatch s !! (id, u)).
  { intros Hclosed u.
    destruct (exec_submissions _ _ _ _ _ Hc) as [(user & n & v & -> & _ & -> & ->)|[-> ->]];
      [|done].
    simpl in Hc. apply submitPassportData_Ok in Hc as (_ & _ & _ & _ & Ho & _).
    assert (currentBatchId s ≠ id) by (intros Heq; rewrite Heq in Ho; congruence).
    rewrite !lookup_insert_ne by congruence. done. }
  destruct (exec_batches _ _ _ _ _ Hc)
    as [(_ & -> & -> & _)|[(_ & Ho & -> & -> & _)|(_ & -> & -> & _)]].
  - rewrite mget_insert_ne, lookup_insert_ne by lia.
    split; [lia|]. split; [done|]. split; [done|]. intros Hcl. split; [done|auto].
  - split; [lia|]. rewrite mget_insert. case_decide as Hq.
    + subst id. simpl. split; [done|]. split; [done|]. intros Hcl. congruence.
    + rewrite lookup_insert_ne by done.
      split; [done|]. split; [done|]. intros Hcl. split; [done|auto].
  - split; [lia|]. split; [done|]. split; [done|]. intros Hcl. split; [done|auto].
Qed.
End BatchHistory.

(** A batch that is not open keeps its record and its slots, and stays at
    or below the batch counter. *)
Lemma closed_batch_frozen `{External} id txs w :
  id <= currentBatchId w.1 ->
  isOpen (batches w.1).[id] = false ->
  id <= currentBatchId (run txs w).1 /\
  batches (run txs w).1 !! id = batches w.1 !! id /\
  forall u,
    userPassportData (run txs w).1 !! (id, u) = userPassportData w.1 !! (id, u) /\
    hasSubmittedForBatch (run txs w).1 !! (id, u) = hasSubmittedForBatch w.1 !! (id, u).
Proof.
  intros Hid Hclosed.
  apply (run_invariant (fun w' =>
           id <= currentBatchId w'.1 /\
           batches w'.1 !! id = batches w.1 !! id /\
           forall u,
             userPassportData w'.1 !! (id, u) = userPassportData w.1 !! (id, u) /\
             hasSubmittedForBatch w'.1 !! (id, u) = hasSubmittedForBatch w.1 !! (id, u)));
    [|done].
  intros s log env c s' evs (Hle & Hb & Hd) Hc. simpl in *.
  assert (Hcl : isOpen (batches s).[id] = false) by (unfold mget in *; by rewrite Hb).
  destruct (exec_batch_record _ _ _ _ _ id Hc Hle) as (Hcur & _ & _ & Hfrozen).
  destruct (Hfrozen Hcl) as [Hb' Hd'].
  split; [lia|]. split; [congruence|]. intros u.
  destruct (Hd u) as [? ?], (Hd' u) as [? ?]. split; congruence.
Qed.

(** X6. A batch whose id is at most [currentBatchId] and that is not open
    is frozen: after any sequence of calls its record (open flag, creation
    and closing times) is the same, and so are the stored passport record and
    the submission flag of every user in it. *)
Theorem X6_closed_batch_is_frozen `{External} id txs w :
  id <= currentBatchId w.1 ->
  isOpen (batches w.1).[id] = false ->
  batches (run txs w).1 !! id = batches w.1 !! id /\
  forall u,
    userPassportData (run txs w).1 !! (id, u) = userPassportData w.1 !! (id, u) /\
    hasSubmittedForBatch (run txs w).1 !! (id, u) = hasSubmittedForBatch w.1 !! (id, u).
Proof.
  intros Hid Hclosed.
  destruct (closed_batch_frozen id txs w Hid Hclosed) as (_ & Hbatch & Hslots).
  split; [exact Hbatch | exact Hslots].
Qed.

Lemma X6_closed_batch_is_frozen_witness :
  batches (run (H:=sample_external)
             [(at_time 1 300, CallOpenNewBatch); (at_time 2 310, CallSubmitPassportData 7 21 23);
              (at_time 1 320, CallCloseCurrentBatch)]
             (sample_run history_closed)).1 !! 1
  = Some (mkBatch false 0 200).
Proof.
  destruct (X6_closed_batch_is_frozen (H:=sample_external) 1
              [(at_time 1 300, CallOpenNewBatch); (at_time 2 310, CallSubmitPassportData 7 21 23);
               (at_time 1 320, CallCloseCurrentBatch)]
              (sample_run history_closed)) as [-> _].
  - vm_compute. intros [=].
  - vm_compute. reflexivity.
  - vm_compute. reflexivity.
Defined.

(** X7. Along any sequence of calls [currentBatchId] never decreases, and
    for every id up to it the creation time never changes and a batch that
    is not open is never opened again. *)
Theorem X7_batches_never_reopen `{External} id txs w :
  id <= currentBatchId w.1 ->
  currentBatchId w.1 <= currentBatchId (run txs w).1 /\
  createdAt (batches (run txs w).1).[id] = createdAt (batches w.1).[id] /\
  (isOpen (batches (run txs w).1).[id] = true -> isOpen (batches w.1).[id] = true).
Proof.
  intros Hid.
  apply (run_invariant (fun w' =>
           currentBatchId w.1 <= currentBatchId w'.1 /\
           createdAt (batches w'.1).[id] = createdAt (batches w.1).[id] /\
           (isOpen (batches w'.1).[id] = true -> isOpen (batches w.1).[id] = true)));
    [|done].
  intros s log env c s' evs (Hle & Hcr & Hop) Hc. simpl in *.
  destruct (exec_batch_record _ _ _ _ _ id Hc ltac:(lia)) as (Hcur & Hcr' & Hop' & _).
  split; [lia|]. split; [congruence|auto].
Qed.

Lemma X7_batches_never_reopen_witness :
  currentBatchId (sample_run history_closed).1
    <= currentBatchId (run (H:=sample_external) history_reopened (sample_run history_closed)).1 /\
  isOpen (batches (run (H:=sample_external) history_reopened
                     (sample_run history_closed)).1).[1] = false.
Proof.
  destruct (X7_batches_never_reopen (H:=sample_external) 1 history_reopened
              (sample_run history_closed)) as (Hle & _ & Hno).
  - vm_compute. intros [=].
  - split; [exact Hle|].
    destruct (isOpen (batches (run (H:=sample_external) history_reopened
                                 (sample_run history_closed)).1).[1]) eqn:Ho; [|reflexivity].
    specialize (Hno eq_refl). vm_compute in Hno. discriminate Hno.
Defined.

(** ** Cooldown clocks over time *)

Section Clocks.
Context `{External}.

(** Only a submission naming the user moves the user's submission clock, and
    only a verification request naming the user moves the request clock. *)
Lemma exec_clocks s env c s' evs user :
  exec env c s = Ok (s', evs) ->
  ((lastSubmissionTime s').[user] = (lastSubmissionTime s).[user] \/
   (is_submission_call_for user c = true /\
    (lastSubmissionTime s').[user] = block_timestamp env)) /\
  ((lastDecryptionRequestTime s').[user] = (lastDecryptionRequestTime s).[user] \/
   (is_request_call_for user c = true /\
    (lastDecryptionRequestTime s').[user] = block_timestamp env)).
Proof.
  intros Hc. destruct (admin_call c) eqn:Ha.
  { destruct (admin_call_Ok _ _ _ _ _ Ha Hc) as (_ & -> & -> & _). auto. }
  destruct c; try discriminate Ha; simpl in Hc.
  - apply openNewBatch_Ok in Hc as (_ & _ & -> & _). auto.
  - apply closeCurrentBatch_Ok in Hc as (_ & _ & _ & -> & _). auto.
  - apply submitPassportData_Ok in Hc as (_ & _ & _ & _ & _ & _ & _ & _ & -> & _).
    simpl. rewrite mget_insert. split; [|auto]. case_decide as Hu; [|auto].
    right. split; [by apply N.eqb_eq|done].
  - unfold requestVerifyNationality in Hc.
    apply requestVerify_Ok in Hc as (_ & _ & _ & _ & _ & _ & _ & _ & _ & -> & _).
    simpl. rewrite mget_insert. split; [auto|]. case_decide as Hu; [|auto].
    right. split; [by apply N.eqb_eq|done].
  - unfold requestVerifyVisaStatus in Hc.
    apply requestVerify_Ok in Hc as (_ & _ & _ & _ & _ & _ & _ & _ & _ & -> & _).
    simpl. rewrite mget_insert. split; [auto|]. case_decide as Hu; [|auto].
    right. split; [by apply N.eqb_eq|done].
  - apply myCallback_Ok in Hc as (_ & _ & _ & res & _ & -> & _). auto.
Qed.


Lemma request_clock_kept user txs w :
  Forall (fun tx => is_request_call_for user tx.2 = false) txs ->
  (lastDecryptionRequestTime (run txs w).1).[user] = (lastDecryptionRequestTime w.1).[user].
Proof.
  intros Htxs. revert w. induction Htxs as [|tx txs Htx _ IH]; intros w; [done|].
  rewrite run_cons, IH. unfold step.
  destruct (exec tx.1 tx.2 w.1) as [[s' evs]|e] eqn:Hc; [|done]. simpl.
  destruct (exec_clocks _ _ _ _ _ user Hc) as [_ [?|[? _]]]; [done|congruence].
Qed.
End Clocks.



(** X9. The two kinds of verification request share one clock per user:
    after a successful request of either kind for a user at time [t], and any
    calls in between that are not requests for that user, a further request
    of either kind for the user can only succeed at a time of at least [t]
    plus the cooldown then in force. Submissions do not move this clock. *)
Theorem X9_requests_share_one_clock `{External}
    attr field cmp env user b q s s' evs txs log env2 b2 q2 :
  requestVerify attr field cmp env user b q s = Ok (s', evs) ->
  Forall (fun tx => is_request_call_for user tx.2 = false) txs ->
  (lastDecryptionRequestTime (run txs (s', log)).1).[user] = block_timestamp env /\
  (is_ok (requestVerifyNationality env2 user b2 q2 (run txs (s', log)).1) = true ->
   block_timestamp env + cooldownSeconds (run txs (s', log)).1 <= block_timestamp env2) /\
  (is_ok (requestVerifyVisaStatus env2 user b2 q2 (run txs (s', log)).1) = true ->
   block_timestamp env + cooldownSeconds (run txs (s', log)).1 <= block_timestamp env2).
Proof.
  intros Hc Htxs.
  assert (Hclock : (lastDecryptionRequestTime (run txs (s', log)).1).[user]
                   = block_timestamp env).
  { rewrite request_clock_kept by done.
    apply requestVerify_Ok in Hc as (_ & _ & _ & _ & _ & _ & _ & _ & _ & -> & _).
    simpl. by rewrite mget_insert_eq. }
  split; [done|].
  unfold requestVerifyNationality, requestVerifyVisaStatus. split; intros Hok.
  - destruct (requestVerify Nationality encryptedNationality FHE_eq env2 user b2 q2
                (run txs (s', log)).1) as [[s2 evs2]|e] eqn:Hc2; [|done].
    apply requestVerify_Ok in Hc2 as (_ & _ & _ & Hcd & _). by rewrite Hclock in Hcd.
  - destruct (requestVerify VisaStatus encryptedVisaExpiryTimestamp FHE_ge env2 user b2 q2
                (run txs (s', log)).1) as [[s2 evs2]|e] eqn:Hc2; [|done].
    apply requestVerify_Ok in Hc2 as (_ & _ & _ & Hcd & _). by rewrite Hclock in Hcd.
Qed.

Lemma X9_requests_share_one_clock_witness :
  let s := (sample_run history_closed).1 in
  exists s' evs,
    requestVerifyNationality (H:=sample_external) (at_time 2 300) 7 1 11 s = Ok (s', evs) /\
    (lastDecryptionRequestTime s').[7] = 300 /\
    requestVerifyVisaStatus (H:=sample_external) (at_time 2 329) 7 1 5 s'
      = Revert CooldownActive.
Proof.
  intros s.
  destruct (requestVerifyNationality (H:=sample_external) (at_time 2 300) 7 1 11 s)
    as [[s' evs]|e] eqn:Hc; [|vm_compute in Hc; discriminate Hc].
  exists s', evs. split; [reflexivity|].
  destruct (X9_requests_share_one_clock (H:=sample_external) Nationality encryptedNationality
              FHE_eq (at_time 2 300) 7 1 11 s s' evs [] [] (at_time 2 329) 1 5 Hc
              (Forall_nil_2 _)) as (Hclock & _ & _).
  split; [exact Hclock|].
  vm_compute in Hc. injection Hc as <- _. vm_compute. reflexivity.
Defined.

(** X10. A successful submission for one user does not change how a
    submission for another user ends: in the state after it, a submission
    for a different user succeeds or reverts, with the same reason, as it
    would have before. *)
Theorem X10_submissions_do_not_interfere env user n v s s' evs env' other n' v' :
  submitPassportData env user n v s = Ok (s', evs) ->
  other ≠ user ->
  same_outcome (submitPassportData env' other n' v' s')
               (submitPassportData env' other n' v' s).
Proof.
  intros Hc Hne.
  apply submitPassportData_Ok in Hc as (_ & _ & _ & _ & _ & _ & _ & _ & -> & _).
  unfold submitPassportData, onlyProvider, whenNotPaused. rewrite !respectCooldown_cases.
  unfold _initIfNeeded, bind. simpl.
  rewrite !mget_insert_ne by congruence.
  repeat match goal with
         | |- context [if ?b then _ else _] => destruct b; simpl; try done
         end.
Qed.

Lemma X10_submissions_do_not_interfere_witness :
  let s := (sample_run history_provider_added).1 in
  exists s' evs,
    submitPassportData (at_time 2 100) 7 11 13 s = Ok (s', evs) /\
    is_ok (submitPassportData (at_time 2 101) 8 21 23 s') = true.
Proof.
  intros s.
  destruct (submitPassportData (at_time 2 100) 7 11 13 s) as [[s' evs]|e] eqn:Hc;
    [|vm_compute in Hc; discriminate Hc].
  exists s', evs. split; [reflexivity|].
  pose proof (X10_submissions_do_not_interfere (at_time 2 100) 7 11 13 s s' evs
                (at_time 2 101) 8 21 23 Hc ltac:(intros [=])) as Hsame.
  destruct (submitPassportData (at_time 2 101) 8 21 23 s') as [r|e]; [reflexivity|].
  exfalso. vm_compute in Hsame. exact Hsame.
Defined.

(** ** Stored submissions, their flags and their events *)

Section SubmissionRecords.
Context `{External}.

Lemma submitted_slots_app l1 l2 :
  submitted_slots (l1 ++ l2) = submitted_slots l1 ++ submitted_slots l2.
Proof. apply omap_app. Qed.

Lemma exec_submitted_slots s env c s' evs :
  exec env c s = Ok (s', evs) ->
  (exists user n v,
     c = CallSubmitPassportData user n v /\
     submitted_slots evs = [(currentBatchId s, user)] /\
     n ≠ 0 /\ v ≠ 0 /\ isOpen (batches s).[currentBatchId s] = true) \/
  (submitted_slots evs = [] /\ forall u n v, c ≠ CallSubmitPassportData u n v).
Proof.
  intros Hc. destruct (admin_call c) eqn:Ha.
  { right. destruct c; try discriminate Ha; simpl in Hc;
      unfold transferOwnership, addProvider, removeProvider, setCooldown, pause, unpause,
        onlyOwner in Hc;
      repeat match type of Hc with
             | context [if ?b then _ else _] => destruct b; try discriminate Hc
             end; injection Hc as _ <-; done. }
  destruct c; try discriminate Ha; simpl in Hc.
  - apply openNewBatch_Ok in Hc as (_ & _ & _ & ->). by right.
  - apply closeCurrentBatch_Ok in Hc as (_ & _ & _ & _ & ->). by right.
  - apply submitPassportData_Ok in Hc as (_ & _ & _ & _ & ? & _ & ? & ? & _ & ->).
    left. by eexists _, _, _.
  - unfold requestVerifyNationality in Hc.
    apply requestVerify_Ok in Hc as (_ & _ & _ & _ & _ & _ & _ & _ & _ & _ & ->). by right.
  - unfold requestVerifyVisaStatus in Hc.
    apply requestVerify_Ok in Hc as (_ & _ & _ & _ & _ & _ & _ & _ & _ & _ & ->). by right.
  - apply myCallback_Ok in Hc as (_ & _ & _ & res & _ & _ & ->). by right.
Qed.

Lemma submissions_consistent_exec s log env c s' evs :
  1 <= currentBatchId s ->
  submissions_consistent (s, log) -> exec env c s = Ok (s', evs) ->
  submissions_consistent (s', log ++ evs).
Proof.
  intros Hone Hs Hc b u. specialize (Hs b u). simpl in *.
  rewrite submitted_slots_app.
  assert (Hcur : currentBatchId s <= currentBatchId s').
  { destruct (exec_batches _ _ _ _ _ Hc)
      as [(_ & -> & _)|[(_ & _ & -> & _)|(_ & -> & _)]]; lia. }
  destruct (exec_submitted_slots _ _ _ _ _ Hc)
    as [(user & n & v & -> & -> & Hn & Hv & Ho)|[-> Hnot]].
  - simpl in Hc.
    apply submitPassportData_Ok in Hc as (_ & _ & _ & _ & _ & Hfree & _ & _ & -> & _).
    simpl in *. rewrite !mget_insert, lookup_insert.
    case_decide as Hk.
    + injection Hk as <- <-. split; [|done]. intros _. simpl.
      repeat split; try done.
      * rewrite elem_of_app, list_elem_of_singleton. auto.
    + destruct Hs as [Hs1 Hs2]. split.
      * intros Hf. destruct (Hs1 Hf) as (? & ? & ? & ?).
        repeat split; try done; try lia. rewrite elem_of_app. auto.
      * intros Hf. destruct (Hs2 Hf) as [? ?]. split; [done|].
        rewrite elem_of_app, list_elem_of_singleton. intros [?|?]; [done|congruence].
  - rewrite app_nil_r.
    destruct (exec_submissions _ _ _ _ _ Hc) as [(user & n & v & -> & _)|[-> ->]];
      [by destruct (Hnot user n v)|].
    destruct Hs as [Hs1 Hs2]. split.
    + intros Hf. destruct (Hs1 Hf) as (? & ? & ? & ?). repeat split; try done; lia.
    + done.
Qed.
End SubmissionRecords.

Lemma reachable_submissions_consistent `{External} w :
  reachable w -> submissions_consistent w.
Proof.
  intros Hw.
  cut (wf w /\ submissions_consistent w); [tauto|].
  revert w Hw. apply (reachable_invariant (fun w => wf w /\ submissions_consistent w)).
  - intros d. split; [apply wf_constructor|]. intros b' u'. simpl. split; [done|].
    intros _. split; [done|]. apply not_elem_of_nil.
  - intros s log env c s' evs Hty [Hwf Hs] Hc. split; [by eapply wf_exec|].
    eapply submissions_consistent_exec; [|done..]. by destruct Hwf.
Qed.

(** X11. In every reachable state the submission flag, the stored record and
    the log agree for every (batch, user) slot: where the flag is set, both
    stored handles are initialised, the batch id lies between 1 and
    [currentBatchId] and a [PassportSubmitted] event for the slot is in the
    log; where it is not set, nothing is stored and no such event is in the
    log. So the initialisation test of the request functions fails exactly
    for the users without a submission. *)
Theorem X11_flags_records_and_events_agree `{External} w b u :
  reachable w ->
  ((hasSubmittedForBatch w.1).[(b, u)] = true ->
   encryptedNationality (userPassportData w.1).[(b, u)] ≠ 0 /\
   encryptedVisaExpiryTimestamp (userPassportData w.1).[(b, u)] ≠ 0 /\
   1 <= b <= currentBatchId w.1 /\
   (b, u) ∈ submitted_slots w.2) /\
  ((hasSubmittedForBatch w.1).[(b, u)] = false ->
   userPassportData w.1 !! (b, u) = None /\
   (b, u) ∉ submitted_slots w.2) /\
  isInitialized (encryptedNationality (userPassportData w.1).[(b, u)])
    = (hasSubmittedForBatch w.1).[(b, u)] /\
  isInitialized (encryptedVisaExpiryTimestamp (userPassportData w.1).[(b, u)])
    = (hasSubmittedForBatch w.1).[(b, u)].
Proof.
  intros Hw. pose proof (reachable_submissions_consistent w Hw) as Hcons.
  destruct (Hcons b u) as [Hset Hunset].
  split; [done|]. split; [done|]. unfold isInitialized.
  destruct ((hasSubmittedForBatch w.1).[(b, u)]).
  - destruct (Hset eq_refl) as (Hn & Hv & _).
    apply N.eqb_neq in Hn, Hv. by rewrite Hn, Hv.
  - destruct (Hunset eq_refl) as [Hnone _]. by rewrite (mget_None _ _ Hnone).
Qed.

Lemma X11_flags_records_and_events_agree_witness :
  (1, 7) ∈ submitted_slots (sample_run history_closed).2 /\
  (1, 8) ∉ submitted_slots (sample_run history_closed).2.
Proof.
  assert (Hw : reachable (H:=sample_external) (sample_run history_closed))
    by (exists (at_time 1 0), history_closed; split; reflexivity).
  split.
  - destruct (X11_flags_records_and_events_agree (H:=sample_external) _ 1 7 Hw)
      as (Hset & _).
    apply Hset. vm_compute. reflexivity.
  - destruct (X11_flags_records_and_events_agree (H:=sample_external) _ 1 8 Hw)
      as (_ & Hunset & _).
    apply Hunset. vm_compute. reflexivity.
Defined.

(** ** Contexts and the batches they name *)

Section ContextBatches.
Context `{External}.

Lemma contexts_closed_exec s env c s' evs :
  keccak256_encode [0] this ≠ 0 ->
  contexts_closed s -> exec env c s = Ok (s', evs) -> contexts_closed s'.
Proof.
  intros Hk Hs Hc. destruct (admin_call c) eqn:Ha.
  { destruct (admin_call_Ok _ _ _ _ _ Ha Hc)
      as (_ & _ & _ & Hcur & Hb & _ & _ & Hx & Hn & _).
    unfold contexts_closed. by rewrite Hcur, Hb, Hx, Hn. }
  destruct c; try discriminate Ha; simpl in Hc.
  - apply openNewBatch_Ok in Hc as (_ & _ & -> & _).
    intros r ctx Hr. simpl in *. destruct (Hs r ctx Hr) as (? & ? & ?).
    rewrite mget_insert_ne by lia. repeat split; try done; lia.
  - apply closeCurrentBatch_Ok in Hc as (_ & _ & _ & -> & _).
    intros r ctx Hr. simpl in *. destruct (Hs r ctx Hr) as (? & ? & ?).
    rewrite mget_insert. case_decide; repeat split; try done; lia.
  - apply submitPassportData_Ok in Hc as (_ & _ & _ & _ & _ & _ & _ & _ & -> & _). done.
  - unfold requestVerifyNationality in Hc.
    apply requestVerify_Ok in Hc as (_ & _ & _ & _ & ? & ? & _ & _ & _ & -> & _).
    intros r ctx. simpl. rewrite lookup_insert. case_decide.
    + intros [= <-]. simpl. repeat split; try done; lia.
    + intros Hr. destruct (Hs r ctx Hr) as (? & ? & ?). repeat split; try done; lia.
  - unfold requestVerifyVisaStatus in Hc.
    apply requestVerify_Ok in Hc as (_ & _ & _ & _ & ? & ? & _ & _ & _ & -> & _).
    intros r ctx. simpl. rewrite lookup_insert. case_decide.
    + intros [= <-]. simpl. repeat split; try done; lia.
    + intros Hr. destruct (Hs r ctx Hr) as (? & ? & ?). repeat split; try done; lia.
  - apply myCallback_Ok in Hc as (_ & Hh & _ & res & _ & -> & _).
    intros r' ctx. simpl. rewrite lookup_insert. case_decide; [|apply Hs].
    intros [= <-]. simpl. subst r'.
    destruct (decryptionContexts s !! requestId) as [old|] eqn:Hold.
    + unfold mget at 1 2 4. rewrite Hold. simpl. by apply (Hs requestId old).
    + unfold mget in Hh. rewrite Hold in Hh. simpl in Hh. congruence.
Qed.
End ContextBatches.

(** X12. Under a digest that never yields the zero word, in every reachable
    state each stored decryption context belongs to an identifier that was
    handed out and names a batch id between 1 and [currentBatchId] whose
    batch is not open; that batch and everything stored in it stay as they
    are through any later calls. *)
Theorem X12_contexts_name_closed_batches `{External} w r ctx :
  keccak256_encode [0] this ≠ 0 ->
  reachable w ->
  decryptionContexts w.1 !! r = Some ctx ->
  r < counterRequest w.1 /\
  1 <= batchId ctx <= currentBatchId w.1 /\
  isOpen (batches w.1).[batchId ctx] = false /\
  forall txs u,
    batches (run txs w).1 !! batchId ctx = batches w.1 !! batchId ctx /\
    userPassportData (run txs w).1 !! (batchId ctx, u)
      = userPassportData w.1 !! (batchId ctx, u).
Proof.
  intros Hk Hw Hr.
  assert (Hcl : contexts_closed w.1).
  { clear Hr. revert w Hw. apply (reachable_invariant (fun w => contexts_closed w.1)).
    - intros d r' ctx' Hr'. done.
    - intros s log env c s' evs _. simpl. by apply contexts_closed_exec. }
  destruct (Hcl r ctx Hr) as (Hlt & Hb & Ho).
  repeat (split; [done|]). intros txs u.
  destruct (closed_batch_frozen (batchId ctx) txs w) as (_ & Hbatch & Hdata); [lia|done|].
  split; [done|]. by destruct (Hdata u).
Qed.

Lemma X12_contexts_name_closed_batches_witness :
  let w := sample_run history_requested in
  decryptionContexts w.1 !! 0 = Some (mkDecryptionContext 1 4803 false) /\
  isOpen (batches w.1).[1] = false /\
  userPassportData
    (run (H:=sample_external)
       [(at_time 1 400, CallOpenNewBatch); (at_time 2 410, CallSubmitPassportData 7 21 23)] w).1
    !! (1, 7) = Some (mkPassportData 11 13).
Proof.
  intros w.
  assert (Hr : decryptionContexts w.1 !! 0 = Some (mkDecryptionContext 1 4803 false))
    by (vm_compute; reflexivity).
  assert (Hk : @keccak256_encode sample_external [0] (@this sample_external) ≠ 0)
    by (intros Heq; vm_compute in Heq; discriminate Heq).
  assert (Hw : reachable (H:=sample_external) w)
    by (exists (at_time 1 0), history_requested; split; reflexivity).
  destruct (X12_contexts_name_closed_batches (H:=sample_external) w 0 _ Hk Hw Hr)
    as (_ & _ & Hclosed & Hfrozen).
  split; [exact Hr|]. split; [exact Hclosed|].
  destruct (Hfrozen [(at_time 1 400, CallOpenNewBatch);
                     (at_time 2 410, CallSubmitPassportData 7 21 23)] 7) as [_ Hdata].
  simpl batchId in Hdata. rewrite Hdata. vm_compute. reflexivity.
Defined.

(** ** Opening and closing as the owner *)

(** X13. For the owner, [openNewBatch] succeeds exactly when the batch
    counter can still be incremented, whether or not the current batch is
    open, and [closeCurrentBatch] succeeds exactly when the current batch is
    open and the counter can be incremented. Closing an open batch and then
    opening a new one moves the counter by two: the closed batch keeps its
    creation time and gets its closing time, the id after it is left without
    a batch, and the id after that is opened. *)
Theorem X13_close_then_open env1 env2 s :
  msg_sender env1 = owner s ->
  msg_sender env2 = owner s ->
  (is_ok (openNewBatch env1 s) = true <-> currentBatchId s + 1 <= MAX_UINT256) /\
  (is_ok (closeCurrentBatch env1 s) = true
     <-> isOpen (batches s).[currentBatchId s] = true /\
         currentBatchId s + 1 <= MAX_UINT256) /\
  (isOpen (batches s).[currentBatchId s] = true ->
   currentBatchId s + 2 <= MAX_UINT256 ->
   exists s1 s2,
     closeCurrentBatch env1 s = Ok (s1, [Event.BatchClosed (currentBatchId s)]) /\
     openNewBatch env2 s1 = Ok (s2, [Event.BatchOpened (currentBatchId s + 2)]) /\
     currentBatchId s2 = currentBatchId s + 2 /\
     batches s2
       = <[currentBatchId s + 2 := mkBatch true (block_timestamp env2) 0]>
           (<[currentBatchId s :=
                mkBatch false (createdAt (batches s).[currentBatchId s])
                  (block_timestamp env1)]> (batches s))).
Proof.
  intros Ho1 Ho2.
  assert (Hclose : forall b : bool,
            isOpen (batches s).[currentBatchId s] = b ->
            closeCurrentBatch env1 s
            = if b then
                if currentBatchId s + 1 <=? MAX_UINT256
                then Ok (set_currentBatchId (currentBatchId s + 1)
                           (set_batches
                              (<[currentBatchId s :=
                                   mkBatch false (createdAt (batches s).[currentBatchId s])
                                     (block_timestamp env1)]> (batches s)) s),
                         [Event.BatchClosed (currentBatchId s)])
                else Revert (Panic 17)
              else Revert BatchClosed).
  { intros b Hb. unfold closeCurrentBatch, onlyOwner, _closeBatch, checked_add, bind.
    rewrite Ho1, N.eqb_refl, Hb. simpl. destruct b; [|done]. simpl.
    rewrite mget_insert_eq. simpl. rewrite insert_insert_eq.
    by destruct (_ <=? _). }
  split; [|split].
  - unfold openNewBatch, onlyOwner, checked_add, bind. rewrite Ho1, N.eqb_refl. simpl.
    destruct (N.leb_spec (currentBatchId s + 1) MAX_UINT256); simpl; split; try done; lia.
  - rewrite (Hclose _ eq_refl).
    destruct (isOpen (batches s).[currentBatchId s]); simpl; [|split; [done|by intros []]].
    destruct (N.leb_spec (currentBatchId s + 1) MAX_UINT256); simpl; split; try done.
    intros [_ ?]. lia.
  - intros Hopen Hfit. rewrite (Hclose _ Hopen).
    destruct (N.leb_spec (currentBatchId s + 1) MAX_UINT256); [|lia].
    eexists _, _. split; [done|].
    unfold openNewBatch, onlyOwner, checked_add, bind, _openNewBatch. simpl.
    rewrite Ho2, N.eqb_refl. simpl.
    destruct (N.leb_spec (currentBatchId s + 1 + 1) MAX_UINT256); [|lia].
    replace (currentBatchId s + 1 + 1) with (currentBatchId s + 2) by lia.
    simpl. done.
Qed.

Lemma X13_close_then_open_witness :
  let s := (sample_run history_submitted).1 in
  exists s1 s2,
    closeCurrentBatch (at_time 1 200) s = Ok (s1, [Event.BatchClosed 1]) /\
    openNewBatch (at_time 1 210) s1 = Ok (s2, [Event.BatchOpened 3]) /\
    currentBatchId s2 = 3.
Proof.
  intros s.
  destruct (X13_close_then_open (at_time 1 200) (at_time 1 210) s eq_refl eq_refl)
    as (_ & _ & Hcycle).
  destruct Hcycle as (s1 & s2 & Hc & Ho & Hcur & _).
  - vm_compute. reflexivity.
  - vm_compute. intros [=].
  - exists s1, s2. split; [exact Hc|]. split; [exact Ho|exact Hcur].
Defined.

(** ** Contexts and their events *)

Section ContextEvents.
Context `{External}.

Lemma exec_context_events s env c s' evs :
  exec env c s = Ok (s', evs) ->
  (exists b h,
     decryptionContexts s' = <[counterRequest s := mkDecryptionContext b h false]>
                               (decryptionContexts s) /\
     counterRequest s' = counterRequest s + 1 /\
     requested_contexts evs = [(counterRequest s, b)] /\
     completed_requests evs = []) \/
  (exists r,
     decryptionContexts s'
       = <[r := mkDecryptionContext (batchId (decryptionContexts s).[r])
                  (stateHash (decryptionContexts s).[r]) true]> (decryptionContexts s) /\
     stateHash (decryptionContexts s).[r] = keccak256_encode [0] this /\
     counterRequest s' = counterRequest s /\
     requested_contexts evs = [] /\
     completed_requests evs = [r]) \/
  (decryptionContexts s' = decryptionContexts s /\
   counterRequest s' = counterRequest s /\
   requested_contexts evs = [] /\
   completed_requests evs = []).
Proof.
  intros Hc. destruct (admin_call c) eqn:Ha.
  { right; right. destruct c; try discriminate Ha; simpl in Hc;
      unfold transferOwnership, addProvider, removeProvider, setCooldown, pause, unpause,
        onlyOwner in Hc;
      repeat match type of Hc with
             | context [if ?b then _ else _] => destruct b; try discriminate Hc
             end; injection Hc as <- <-; done. }
  destruct c; try discriminate Ha; simpl in Hc.
  - apply openNewBatch_Ok in Hc as (_ & _ & -> & ->). by right; right.
  - apply closeCurrentBatch_Ok in Hc as (_ & _ & _ & -> & ->). by right; right.
  - apply submitPassportData_Ok in Hc as (_ & _ & _ & _ & _ & _ & _ & _ & -> & ->).
    by right; right.
  - unfold requestVerifyNationality in Hc.
    apply requestVerify_Ok in Hc as (_ & _ & _ & _ & _ & _ & _ & _ & _ & -> & ->).
    left. by eexists _, _.
  - unfold requestVerifyVisaStatus in Hc.
    apply requestVerify_Ok in Hc as (_ & _ & _ & _ & _ & _ & _ & _ & _ & -> & ->).
    left. by eexists _, _.
  - apply myCallback_Ok in Hc as (_ & ? & _ & res & _ & -> & ->).
    right; left. by eexists.
Qed.

Lemma requested_contexts_app l1 l2 :
  requested_contexts (l1 ++ l2) = requested_contexts l1 ++ requested_contexts l2.
Proof. apply omap_app. Qed.

Lemma completed_requests_app l1 l2 :
  completed_requests (l1 ++ l2) = completed_requests l1 ++ completed_requests l2.
Proof. apply omap_app. Qed.

Lemma contexts_logged_exec s log env c s' evs :
  keccak256_encode [0] this ≠ 0 ->
  contexts_logged (s, log) -> exec env c s = Ok (s', evs) ->
  contexts_logged (s', log ++ evs).
Proof.
  intros Hk [Hiss Hlog] Hc. split; [by eapply contexts_issued_exec|].
  simpl in *.
  intros r. specialize (Hlog r). rewrite requested_contexts_app, completed_requests_app.
  destruct (exec_context_events _ _ _ _ _ Hc)
    as [(b & h & -> & _ & -> & ->)|[(r0 & -> & Hh & _ & -> & ->)|(-> & _ & -> & ->)]];
    rewrite ?app_nil_r.
  - rewrite lookup_insert. case_decide as Hq.
    + subst r. rewrite (Hiss (counterRequest s)) in Hlog by lia. destruct Hlog as [_ Hnc].
      simpl. split; [rewrite elem_of_app, list_elem_of_singleton; auto|].
      split; [done|]. intros Hin. done.
    + destruct (decryptionContexts s !! r) as [ctx|].
      * destruct Hlog as [Hin Hp]. split; [rewrite elem_of_app; auto|done].
      * destruct Hlog as [Hnr Hnc]. split; [|done]. intros b'.
        rewrite elem_of_app, list_elem_of_singleton. intros [?|[= ? ?]]; [by eapply Hnr|done].
  - rewrite lookup_insert. case_decide as Hq.
    + subst r0. unfold mget in *. destruct (decryptionContexts s !! r) as [ctx|].
      * simpl in *. destruct Hlog as [Hin Hp]. split; [done|].
        split; [|done]. intros _. rewrite elem_of_app, list_elem_of_singleton. auto.
      * simpl in Hh. congruence.
    + destruct (decryptionContexts s !! r) as [ctx|].
      * destruct Hlog as [Hin Hp]. split; [done|]. rewrite Hp.
        rewrite elem_of_app, list_elem_of_singleton. split; [auto|]. by intros [?|?].
      * destruct Hlog as [Hnr Hnc]. split; [done|].
        rewrite elem_of_app, list_elem_of_singleton. by intros [?|?].
  - done.
Qed.
End ContextEvents.

(** X14. Under a digest that never yields the zero word, in every reachable
    state the stored contexts and the log agree: an identifier with a stored
    context has a [DecryptionRequested] event carrying that identifier and
    the context's batch id, and its context is processed exactly when a
    [DecryptionCompleted] event for it is in the log; an identifier without a
    stored context appears in no such event. *)
Theorem X14_contexts_and_events_agree `{External} w r :
  keccak256_encode [0] this ≠ 0 ->
  reachable w ->
  (forall ctx,
      decryptionContexts w.1 !! r = Some ctx ->
      (r, batchId ctx) ∈ requested_contexts w.2 /\
      (processed ctx = true <-> r ∈ completed_requests w.2)) /\
  (decryptionContexts w.1 !! r = None ->
   (forall b, (r, b) ∉ requested_contexts w.2) /\ r ∉ completed_requests w.2).
Proof.
  intros Hk Hw.
  assert (Hlog : contexts_logged w).
  { revert w Hw. apply (reachable_invariant contexts_logged).
    - intros d. split; [by intros r' _|]. intros r'. simpl.
      split; [intros b|]; apply not_elem_of_nil.
    - intros s log env c s' evs _. by apply contexts_logged_exec. }
  destruct Hlog as [_ Hlog]. specialize (Hlog r).
  destruct (decryptionContexts w.1 !! r) as [ctx0|]; split; try done.
  by intros ctx [= <-].
Qed.

Lemma X14_contexts_and_events_agree_witness :
  let w := run (H:=constant_digest_external)
             [(at_time 9 400, CallMyCallback 0 cleartext_true some_proof)]
             (constant_digest_run history_requested) in
  0 ∈ completed_requests w.2 /\ (0, 1) ∈ requested_contexts w.2.
Proof.
  intros w.
  assert (Hk : @keccak256_encode constant_digest_external [0] (@this constant_digest_external)
               ≠ 0) by (intros Heq; vm_compute in Heq; discriminate Heq).
  assert (Hw : reachable (H:=constant_digest_external) w).
  { exists (at_time 1 0),
      (history_requested ++ [(at_time 9 400, CallMyCallback 0 cleartext_true some_proof)]).
    split; [reflexivity|]. unfold w, constant_digest_run. by rewrite run_app. }
  destruct (X14_contexts_and_events_agree (H:=constant_digest_external) w 0 Hk Hw)
    as [Hsome _].
  destruct (Hsome (mkDecryptionContext 1 1 true)) as [Hreq Hproc].
  - vm_compute. reflexivity.
  - split; [by apply Hproc | exact Hreq].
Defined.

(** ** When a verification request goes through *)




(** ** The cooldown cannot be switched off *)

(** X16. In every reachable state [cooldownSeconds] is at least 1 and fits
    in a [uint256]; hence a submission that succeeds comes strictly after the
    user's previous submission time, and a verification request that succeeds
    comes strictly after the user's previous request time. *)
Theorem X16_cooldown_is_never_zero `{External} w env user :
  reachable w ->
  1 <= cooldownSeconds w.1 <= MAX_UINT256 /\
  (forall n v,
      is_ok (submitPassportData env user n v w.1) = true ->
      (lastSubmissionTime w.1).[user] < block_timestamp env) /\
  (forall b q,
      (is_ok (requestVerifyNationality env user b q w.1) = true ->
       (lastDecryptionRequestTime w.1).[user] < block_timestamp env) /\
      (is_ok (requestVerifyVisaStatus env user b q w.1) = true ->
       (lastDecryptionRequestTime w.1).[user] < block_timestamp env)).
Proof.
  intros Hw. destruct (reachable_wf _ Hw) as [Hcd _ _ _ _ _ _ _].
  split; [done|]. split.
  - intros n v.
    destruct (submitPassportData env user n v w.1) as [[s' evs]|e] eqn:Hc; [|done].
    intros _. apply submitPassportData_Ok in Hc as (_ & _ & _ & ? & _). lia.
  - intros b q. unfold requestVerifyNationality, requestVerifyVisaStatus. split.
    + destruct (requestVerify _ _ _ env user b q w.1) as [[s' evs]|e] eqn:Hc; [|done].
      intros _. apply requestVerify_Ok in Hc as (_ & _ & _ & ? & _). lia.
    + destruct (requestVerify _ _ _ env user b q w.1) as [[s' evs]|e] eqn:Hc; [|done].
      intros _. apply requestVerify_Ok in Hc as (_ & _ & _ & ? & _). lia.
Qed.

Lemma X16_cooldown_is_never_zero_witness :
  1 <= cooldownSeconds (sample_run history_long_cooldown).1 <= MAX_UINT256.
Proof.
  apply (X16_cooldown_is_never_zero (H:=sample_external) (sample_run history_long_cooldown)
           (at_time 2 0) 7).
  exists (at_time 1 0), history_long_cooldown. split; reflexivity.
Defined.

(** ** Providers and the log *)

Section ProviderLog.
Context `{External}.

Lemma added_providers_app l1 l2 :
  added_providers (l1 ++ l2) = added_providers l1 ++ added_providers l2.
Proof. apply omap_app. Qed.

Lemma exec_added_providers s env c s' evs a :
  exec env c s = Ok (s', evs) ->
  (isProvider s').[a] = true ->
  (isProvider s).[a] = true \/ a ∈ added_providers evs.
Proof.
  intros Hc Hp. destruct c; simpl in Hc.
  - unfold transferOwnership, onlyOwner in Hc.
    destruct (negb _); [done|]. injection Hc as <- <-. auto.
  - unfold addProvider, onlyOwner in Hc.
    destruct (negb _); [done|]. destruct (_.[_]); [done|]. injection Hc as <- <-.
    simpl in Hp. rewrite mget_insert in Hp. case_decide; [subst; right; by left|auto].
  - unfold removeProvider, onlyOwner in Hc.
    destruct (negb _); [done|]. destruct (negb _); [done|]. injection Hc as <- <-.
    simpl in Hp. rewrite mget_insert in Hp. case_decide; [done|auto].
  - unfold setCooldown, onlyOwner in Hc.
    destruct (negb _); [done|]. destruct (_ =? _); [done|]. injection Hc as <- <-. auto.
  - unfold pause, onlyOwner in Hc. destruct (negb _); [done|]. injection Hc as <- <-. auto.
  - unfold unpause, onlyOwner in Hc. destruct (negb _); [done|]. injection Hc as <- <-. auto.
  - apply openNewBatch_Ok in Hc as (_ & _ & -> & _). auto.
  - apply closeCurrentBatch_Ok in Hc as (_ & _ & _ & -> & _). auto.
  - apply submitPassportData_Ok in Hc as (_ & _ & _ & _ & _ & _ & _ & _ & -> & _). auto.
  - unfold requestVerifyNationality in Hc.
    apply requestVerify_Ok in Hc as (_ & _ & _ & _ & _ & _ & _ & _ & _ & -> & _). auto.
  - unfold requestVerifyVisaStatus in Hc.
    apply requestVerify_Ok in Hc as (_ & _ & _ & _ & _ & _ & _ & _ & _ & -> & _). auto.
  - apply myCallback_Ok in Hc as (_ & _ & _ & res & _ & -> & _). auto.
Qed.
End ProviderLog.

(** X17. In every reachable state an address is a provider only if a
    [ProviderAdded] event for it is in the log; in particular the deployer is
    not a provider by construction, and an address for which no such event
    was logged gets [NotProvider] from every provider-gated call. *)
Theorem X17_providers_were_added `{External} w a :
  reachable w ->
  ((isProvider w.1).[a] = true -> a ∈ added_providers w.2) /\
  (a ∉ added_providers w.2 ->
   forall t c, provider_only c = true -> exec (mkEnv a t) c w.1 = Revert NotProvider).
Proof.
  intros Hw.
  assert (Hlog : (isProvider w.1).[a] = true -> a ∈ added_providers w.2).
  { revert w Hw.
    apply (reachable_invariant
             (fun w => (isProvider w.1).[a] = true -> a ∈ added_providers w.2)).
    - intros d. simpl. done.
    - intros s log env c s' evs _ Hs Hc Hp. simpl in *.
      rewrite added_providers_app, elem_of_app.
      destruct (exec_added_providers _ _ _ _ _ a Hc Hp); auto. }
  split; [done|]. intros Hnot t c Hc.
  apply provider_only_not_provider; [done|]. simpl.
  destruct ((isProvider w.1).[a]); [|done]. by destruct Hnot; apply Hlog.
Qed.

Lemma X17_providers_were_added_witness :
  exec (H:=sample_external) (mkEnv 1 500) (CallSubmitPassportData 8 11 13)
    (sample_run history_closed).1 = Revert NotProvider.
Proof.
  assert (Hw : reachable (H:=sample_external) (sample_run history_closed))
    by (exists (at_time 1 0), history_closed; split; reflexivity).
  destruct (X17_providers_were_added (H:=sample_external) _ 1 Hw) as [_ Hnot].
  apply Hnot; [|reflexivity].
  vm_compute. intros Hin. inversion Hin as [|? ? ? Hin']; subst. inversion Hin'.
Defined.
